(** * Fall list builder: roster bookkeeping and force-composition rules

    The repository holds two editions of the same single-page roster
    builder.  Both keep the roster in module-level variables
    ([rosterEntries], [nextId], [pointsLimit], ...) and recompute totals,
    composition counts and the status line after every change.

    - [ChampionRules] embeds the edition whose fourth unit type is
      "Champion" (Core >= Special, Champions capped by the points limit).
    - [EliteRules] embeds the edition whose fourth unit type is "Elite"
      (Core >= Special + 2 * Elite, no cap).

    JavaScript numbers are modelled as [Z]: every number that reaches these
    functions is an integer (ids, counters, catalogue points, the points
    limits of the dropdown), far below 2^53.  The module-level variables
    become the fields of [State], which every function takes and returns.
    Of the page itself only the status line (text and dot colour) is kept:
    the unit list, the roster list and the totals label are write-only
    renderings of the same state. *)

From Stdlib Require Import ZArith List String Ascii Bool Lia.
From Stdlib Require Import Permutation Sorted DecimalString.
Import ListNotations.

Local Open Scope list_scope.
Local Open Scope string_scope.
Local Open Scope Z_scope.

(** ** Data shared by both editions *)

(** A unit of the catalogue ([data.json]).  A JSON object may lack its
    [type] field; [None] is the absent field. *)
Record Unit := mkUnit {
  unit_name : string;
  unit_points : Z;
  unit_type : option string
}.

Record Faction := mkFaction {
  faction_name : string;
  faction_units : list Unit
}.

(** [rosterEntries: [{ id, name, points, type }]] *)
Record Entry := mkEntry {
  id : Z;
  name : string;
  points : Z;
  type : string
}.

(** The second argument of [setStatus]. *)
Inductive severity := ok | warn | danger.

Record State := mkState {
  gameData : option (list Faction);
  selectedFactionName : string;
  pointsLimit : Z;
  rosterEntries : list Entry;
  nextId : Z;
  statusText : string;          (* elStatusText.textContent *)
  statusDot : string            (* elStatusDot.style.background *)
}.

(** Template-literal interpolation of an integer. *)
Definition numToString (n : Z) : string :=
  NilZero.string_of_int (Z.to_int n).

Definition newline : string := String (ascii_of_nat 10) EmptyString.

(** [xs.join(sep)] *)
Definition join (sep : string) (xs : list string) : string :=
  String.concat sep xs.

(** [unit.type || "Core"]: an absent or empty type is falsy. *)
Definition falsy (t : option string) : bool :=
  match t with
  | None => true
  | Some s => String.eqb s ""
  end.

Definition orDefault (t : option string) (d : string) : string :=
  match t with
  | None => d
  | Some s => if String.eqb s "" then d else s
  end.

(** [unit.type === "Champion"] *)
Definition typeIs (t : option string) (s : string) : bool :=
  match t with
  | None => false
  | Some s' => String.eqb s' s
  end.

Definition setStatus (message : string) (ty : severity) (st : State) : State :=
  {| gameData := gameData st;
     selectedFactionName := selectedFactionName st;
     pointsLimit := pointsLimit st;
     rosterEntries := rosterEntries st;
     nextId := nextId st;
     statusText := message;
     statusDot := match ty with
                  | danger => "var(--danger)"
                  | warn => "var(--warn)"
                  | ok => "var(--ok)"
                  end |}.

Definition getSelectedFaction (st : State) : option Faction :=
  match gameData st with
  | None => None
  | Some factions =>
      find (fun f => String.eqb (faction_name f) (selectedFactionName st)) factions
  end.

Definition findUnitInSelectedFaction (unitName : string) (st : State) : option Unit :=
  match getSelectedFaction st with
  | None => None
  | Some faction =>
      find (fun u => String.eqb (unit_name u) unitName) (faction_units faction)
  end.

Definition clearRoster (st : State) : State :=
  {| gameData := gameData st;
     selectedFactionName := selectedFactionName st;
     pointsLimit := pointsLimit st;
     rosterEntries := [];
     nextId := 1;
     statusText := statusText st;
     statusDot := statusDot st |}.

(** [let sum = 0; for (const it of rosterEntries) sum += it.points;] *)
Definition getRosterTotal (st : State) : Z :=
  fold_left (fun sum it => sum + points it) (rosterEntries st) 0.

(** [rosterEntries.push(e)] with [nextId++]. *)
Definition pushEntry (unit : Unit) (st : State) : State :=
  {| gameData := gameData st;
     selectedFactionName := selectedFactionName st;
     pointsLimit := pointsLimit st;
     rosterEntries := List.app (rosterEntries st)
       [ {| id := nextId st;
            name := unit_name unit;
            points := unit_points unit;
            type := orDefault (unit_type unit) "Core" |} ];
     nextId := nextId st + 1;
     statusText := statusText st;
     statusDot := statusDot st |}.

(** [rosterEntries = rosterEntries.filter((e) => e.id !== id)] *)
Definition removeById (i : Z) (st : State) : State :=
  {| gameData := gameData st;
     selectedFactionName := selectedFactionName st;
     pointsLimit := pointsLimit st;
     rosterEntries := filter (fun e => negb (id e =? i)) (rosterEntries st);
     nextId := nextId st;
     statusText := statusText st;
     statusDot := statusDot st |}.

(** *** [Array.prototype.sort] with a comparator

    The sort is stable, and for a consistent comparator its result is the
    one stable rearrangement in comparator order; straight insertion
    computes it. *)
Section Sort.
Context {A : Type} (cmp : A -> A -> Z).

Fixpoint insertSorted (a : A) (l : list A) : list A :=
  match l with
  | [] => [a]
  | b :: l' => if cmp a b <=? 0 then a :: b :: l' else b :: insertSorted a l'
  end.

Fixpoint sortWith (l : list A) : list A :=
  match l with
  | [] => []
  | a :: l' => insertSorted a (sortWith l')
  end.
End Sort.

(** [xs.map((x, idx) => f(x, idx))], the index counted from [i]. *)
Fixpoint mapIdx {A B : Type} (f : A -> Z -> B) (i : Z) (l : list A) : list B :=
  match l with
  | [] => []
  | a :: l' => f a i :: mapIdx f (i + 1) l'
  end.

(** [new Map(TYPE_ORDER.map((t, i) => [t, i]))] and its [get]. *)
Definition mapOfOrder (order : list string) : list (string * Z) :=
  mapIdx (fun t i => (t, i)) 0 order.

Definition mapGet (m : list (string * Z)) (k : string) : option Z :=
  option_map snd (find (fun p => String.eqb (fst p) k) m).

(** [x ?? d] *)
Definition nullish (x : option Z) (d : Z) : Z :=
  match x with Some v => v | None => d end.

(** The comparator handed to [sort] in [renderRoster] and
    [copyRosterToClipboard]. *)
Definition compareEntries (m : list (string * Z)) (a b : Entry) : Z :=
  let ta := nullish (mapGet m (type a)) 999 in
  let tb := nullish (mapGet m (type b)) 999 in
  if negb (ta =? tb) then ta - tb else id a - id b.

(** [`${idx + 1}. [${it.type}] ${it.name} — ${it.points}`] *)
Definition entryLine (it : Entry) (idx : Z) : string :=
  numToString (idx + 1) ++ ". [" ++ type it ++ "] " ++ name it ++ " — "
    ++ numToString (points it).

(** The tail of [renderRoster]: from the total, the limit and the list of
    composition problems to the arguments of [setStatus].  The two editions
    differ in one message, passed as [legalSoFar]. *)
Definition statusCall (legalSoFar : string) (total limit : Z)
    (compProblems : list string) : string * severity :=
  let over := Z.max 0 (total - limit) in
  let remaining := Z.max 0 (limit - total) in
  let pointsOk := total <=? limit in
  let compOk := (Z.of_nat (List.length compProblems) =? 0) in
  if total =? 0 then ("Ready.", ok)
  else if negb pointsOk && negb compOk then
    ("Over by " ++ numToString over ++ " pts. " ++ join " " compProblems, danger)
  else if negb pointsOk then
    ("Over by " ++ numToString over ++ " pts.", danger)
  else if negb compOk then
    (numToString remaining ++ " pts remaining. " ++ join " " compProblems, warn)
  else if total =? limit then
    ("Legal: exact points and legal force composition.", ok)
  else
    (numToString remaining ++ legalSoFar, ok).

(** The three roster actions a user can trigger, for statements about
    sequences of them. *)
Inductive Action :=
| Add (unitName : string)
| Delete (i : Z)
| Clear.

(** ** The "Champion" edition *)
Module ChampionRules.

Definition TYPE_ORDER : list string := ["Leader"; "Core"; "Special"; "Champion"].
Definition TYPE_ORDER_MAP : list (string * Z) := mapOfOrder TYPE_ORDER.

(** Module-level initial values; the status line is whatever the page
    shows before the first render. *)
Definition initialState (text dot : string) : State :=
  {| gameData := None;
     selectedFactionName := "";
     pointsLimit := 300;
     rosterEntries := [];
     nextId := 1;
     statusText := text;
     statusDot := dot |}.

Record ForceComp := mkForceComp {
  leaders : Z;
  core : Z;
  special : Z;
  champions : Z;
  requiredCore : Z
}.

(** One turn of the loop of [computeForceComp] over its four counters
    [(leaders, core, special, champions)]. *)
Definition tally (c : Z * Z * Z * Z) (it : Entry) : Z * Z * Z * Z :=
  let '(leaders, core, special, champions) := c in
  let t := type it in
  if String.eqb t "Leader" then (leaders + 1, core, special, champions)
  else if String.eqb t "Core" then (leaders, core + 1, special, champions)
  else if String.eqb t "Special" then (leaders, core, special + 1, champions)
  else if String.eqb t "Champion" then (leaders, core, special, champions + 1)
  else c.

Definition computeForceComp (st : State) : ForceComp :=
  let '(leaders, core, special, champions) :=
    fold_left tally (rosterEntries st) (0, 0, 0, 0) in
  let requiredCore := special in (* champions do not contribute *)
  {| leaders := leaders; core := core; special := special;
     champions := champions; requiredCore := requiredCore |}.

(** [Math.floor(Number(limit) / 250)] *)
Definition getChampionCap (limit : Z) : Z := limit / 250.

(** The [compProblems] array built in [renderRoster]. *)
Definition compProblems (st : State) : list string :=
  let comp := computeForceComp st in
  let maxChampions := getChampionCap (pointsLimit st) in
  List.app
    (if negb (leaders comp =? 1)
     then ["Leaders: need exactly 1 (you have " ++ numToString (leaders comp) ++ ")."]
     else [])
 (List.app
    (if core comp <? requiredCore comp
     then ["Core: need at least " ++ numToString (requiredCore comp)
             ++ " (you have " ++ numToString (core comp) ++ ")."]
     else [])
    (if champions comp >? maxChampions
     then ["Champions: max " ++ numToString maxChampions ++ " at "
             ++ numToString (pointsLimit st) ++ " pts (you have "
             ++ numToString (champions comp) ++ ")."]
     else [])).

(** The branch of [renderRoster] that picks the arguments of [setStatus]. *)
Definition renderRoster_status (total limit : Z) (problems : list string)
    : string * severity :=
  statusCall " pts remaining. Legal so far." total limit problems.

Definition rosterStatus (st : State) : string * severity :=
  renderRoster_status (getRosterTotal st) (pointsLimit st) (compProblems st).

Definition renderRoster (st : State) : State :=
  setStatus (fst (rosterStatus st)) (snd (rosterStatus st)) st.

Definition addUnit (unitName : string) (st : State) : State :=
  match findUnitInSelectedFaction unitName st with
  | None => st
  | Some unit =>
      let maxChampions := getChampionCap (pointsLimit st) in
      let comp := computeForceComp st in
      if typeIs (unit_type unit) "Champion" && (champions comp >=? maxChampions)
      then setStatus ("Champion cap reached (" ++ numToString maxChampions
                        ++ " max at " ++ numToString (pointsLimit st) ++ " pts).")
                     warn st
      else renderRoster (pushEntry unit st)
  end.

Definition deleteEntry (i : Z) (st : State) : State :=
  renderRoster (removeById i st).

(** The [ordered] array of [renderRoster] and [copyRosterToClipboard]. *)
Definition ordered (st : State) : list Entry :=
  sortWith (compareEntries TYPE_ORDER_MAP) (rosterEntries st).

(** The [lines] array of [copyRosterToClipboard]. *)
Definition rosterLines (st : State) : list string :=
  let faction :=
    if String.eqb (selectedFactionName st) "" then "Unknown faction"
    else selectedFactionName st in
  let total := getRosterTotal st in
  let comp := computeForceComp st in
  let maxChampions := getChampionCap (pointsLimit st) in
  List.app
   [ "Fall: A Game of Endings — Roster";
     "Faction: " ++ faction;
     "Limit: " ++ numToString (pointsLimit st);
     "Total: " ++ numToString total;
     "";
     "Force Comp: Leaders " ++ numToString (leaders comp) ++ "/1 · Core "
       ++ numToString (core comp) ++ " (need ≥ " ++ numToString (requiredCore comp)
       ++ ") · Special " ++ numToString (special comp) ++ " · Champions "
       ++ numToString (champions comp) ++ "/" ++ numToString maxChampions;
     "" ]
   (if (Z.of_nat (List.length (ordered st)) =? 0) then ["(No units)"]
    else mapIdx entryLine 0 (ordered st)).

(** [copyRosterToClipboard]: the text handed to the clipboard and the
    state after it; [clipboardOk] says whether [writeText] succeeded. *)
Definition copyRosterToClipboard (clipboardOk : bool) (st : State) : string * State :=
  let text := join newline (rosterLines st) in
  (text,
   if clipboardOk then setStatus "Copied roster to clipboard." ok st
   else setStatus "Copied roster to clipboard (fallback)." ok st).

Definition perform (a : Action) (st : State) : State :=
  match a with
  | Add unitName => addUnit unitName st
  | Delete i => deleteEntry i st
  | Clear => clearRoster st
  end.

(** The actions of [acts] in order, first to last. *)
Definition run (acts : list Action) (st : State) : State :=
  fold_left (fun s a => perform a s) acts st.

End ChampionRules.

(** ** The "Elite" edition *)
Module EliteRules.

Definition TYPE_ORDER : list string := ["Leader"; "Core"; "Special"; "Elite"].
Definition TYPE_ORDER_MAP : list (string * Z) := mapOfOrder TYPE_ORDER.

Definition initialState (text dot : string) : State :=
  {| gameData := None;
     selectedFactionName := "";
     pointsLimit := 200;
     rosterEntries := [];
     nextId := 1;
     statusText := text;
     statusDot := dot |}.

Record ForceComp := mkForceComp {
  leaders : Z;
  core : Z;
  special : Z;
  elite : Z;
  requiredCore : Z
}.

Definition tally (c : Z * Z * Z * Z) (it : Entry) : Z * Z * Z * Z :=
  let '(leaders, core, special, elite) := c in
  let t := type it in
  if String.eqb t "Leader" then (leaders + 1, core, special, elite)
  else if String.eqb t "Core" then (leaders, core + 1, special, elite)
  else if String.eqb t "Special" then (leaders, core, special + 1, elite)
  else if String.eqb t "Elite" then (leaders, core, special, elite + 1)
  else c. (* unknown types are ignored for now *)

Definition computeForceComp (st : State) : ForceComp :=
  let '(leaders, core, special, elite) :=
    fold_left tally (rosterEntries st) (0, 0, 0, 0) in
  let requiredCore := special + 2 * elite in
  {| leaders := leaders; core := core; special := special;
     elite := elite; requiredCore := requiredCore |}.

Definition compProblems (st : State) : list string :=
  let comp := computeForceComp st in
  List.app
    (if negb (leaders comp =? 1)
     then ["Leaders: need exactly 1 (you have " ++ numToString (leaders comp) ++ ")."]
     else [])
    (if core comp <? requiredCore comp
     then ["Core: need at least " ++ numToString (requiredCore comp)
             ++ " (you have " ++ numToString (core comp) ++ ")."]
     else []).

Definition renderRoster_status (total limit : Z) (problems : list string)
    : string * severity :=
  statusCall " pts remaining. Force composition legal so far." total limit problems.

Definition rosterStatus (st : State) : string * severity :=
  renderRoster_status (getRosterTotal st) (pointsLimit st) (compProblems st).

Definition renderRoster (st : State) : State :=
  setStatus (fst (rosterStatus st)) (snd (rosterStatus st)) st.

Definition addUnit (unitName : string) (st : State) : State :=
  match findUnitInSelectedFaction unitName st with
  | None => st
  | Some unit => renderRoster (pushEntry unit st)
  end.

Definition deleteEntry (i : Z) (st : State) : State :=
  renderRoster (removeById i st).

Definition ordered (st : State) : list Entry :=
  sortWith (compareEntries TYPE_ORDER_MAP) (rosterEntries st).

Definition rosterLines (st : State) : list string :=
  let faction :=
    if String.eqb (selectedFactionName st) "" then "Unknown faction"
    else selectedFactionName st in
  let total := getRosterTotal st in
  let comp := computeForceComp st in
  List.app
   [ "Fall: A Game of Endings — Roster";
     "Faction: " ++ faction;
     "Limit: " ++ numToString (pointsLimit st);
     "Total: " ++ numToString total;
     "";
     "Force Comp: Leaders " ++ numToString (leaders comp) ++ "/1 · Core "
       ++ numToString (core comp) ++ "/" ++ numToString (requiredCore comp)
       ++ " (Special " ++ numToString (special comp) ++ ", Elite "
       ++ numToString (elite comp) ++ ")";
     "" ]
   (if (Z.of_nat (List.length (ordered st)) =? 0) then ["(No units)"]
    else mapIdx entryLine 0 (ordered st)).

Definition copyRosterToClipboard (clipboardOk : bool) (st : State) : string * State :=
  let text := join newline (rosterLines st) in
  (text,
   if clipboardOk then setStatus "Copied roster to clipboard." ok st
   else setStatus "Copied roster to clipboard (fallback)." ok st).

Definition perform (a : Action) (st : State) : State :=
  match a with
  | Add unitName => addUnit unitName st
  | Delete i => deleteEntry i st
  | Clear => clearRoster st
  end.

(** The actions of [acts] in order, first to last. *)
Definition run (acts : list Action) (st : State) : State :=
  fold_left (fun s a => perform a s) acts st.

End EliteRules.

(** ** Sample catalogue and rosters *)

Definition sampleCatalogue : list Faction :=
  [ mkFaction "Wardens"
      [ mkUnit "Captain" 5 (Some "Leader");
        mkUnit "Levy" 10 (Some "Core");
        mkUnit "Scout" 8 (Some "Special");
        mkUnit "Paragon" 40 (Some "Champion");
        mkUnit "Veteran" 30 (Some "Elite");
        mkUnit "Follower" 3 None;
        mkUnit "Stray" 3 (Some "Hero") ] ].

(** A loaded page with an empty roster and the given points limit. *)
Definition sampleStart (limit : Z) : State :=
  {| gameData := Some sampleCatalogue;
     selectedFactionName := "Wardens";
     pointsLimit := limit;
     rosterEntries := [];
     nextId := 1;
     statusText := "Ready.";
     statusDot := "var(--ok)" |}.

(** Units of the sample catalogue, for the Add buttons made for them. *)
Definition levyUnit : Unit := mkUnit "Levy" 10 (Some "Core").
Definition scoutUnit : Unit := mkUnit "Scout" 8 (Some "Special").
Definition veteranUnit : Unit := mkUnit "Veteran" 30 (Some "Elite").

(** A roster holding one entry of a type outside the known set. *)
Definition heroOnly : State :=
  {| gameData := Some sampleCatalogue;
     selectedFactionName := "Wardens";
     pointsLimit := 300;
     rosterEntries := [ {| id := 1; name := "Stray"; points := 3; type := "Hero" |} ];
     nextId := 2;
     statusText := "297 pts remaining. Leaders: need exactly 1 (you have 0).";
     statusDot := "var(--warn)" |}.

(** ** Reference notions used in the statements *)

(** Number of roster entries whose type is exactly [t]. *)
Definition countType (t : string) (l : list Entry) : Z :=
  Z.of_nat (List.length (filter (fun e => String.eqb (type e) t) l)).

(** What an entry of type [t] adds to the counter of type [s]. *)
Definition bump (t s : string) : Z := if String.eqb t s then 1 else 0.

(** Number of roster entries whose type is listed in [order]. *)
Definition countKnown (order : list string) (l : list Entry) : Z :=
  Z.of_nat (List.length
    (filter (fun e => existsb (String.eqb (type e)) order) l)).

(** Sum of the [points] fields, by recursion on the roster. *)
Fixpoint sumPoints (l : list Entry) : Z :=
  match l with
  | [] => 0
  | e :: l' => points e + sumPoints l'
  end.

(** Rank of a type for display: its index in the edition's [TYPE_ORDER],
    999 for every other type. *)
Definition typeRank (m : list (string * Z)) (t : string) : Z :=
  nullish (mapGet m t) 999.

(** [a] may be displayed before [b]. *)
Definition displayBefore (m : list (string * Z)) (a b : Entry) : Prop :=
  typeRank m (type a) < typeRank m (type b)
  \/ (typeRank m (type a) = typeRank m (type b) /\ id a <= id b).

(** The order a comparator stands for: [a] is not placed after [b]. *)
Definition notAfter {A : Type} (cmp : A -> A -> Z) (a b : A) : Prop :=
  cmp a b <= 0.

(** The rank of a type as the display order names it, for the edition
    whose fourth type is [fourth]. *)
Definition rankOf (fourth t : string) : Z :=
  if String.eqb t "Leader" then 0
  else if String.eqb t "Core" then 1
  else if String.eqb t "Special" then 2
  else if String.eqb t fourth then 3
  else 999.

(** The line that shows entry [e] under number [n]: the number in
    decimal, the type in brackets, the name, a dash and the points in
    decimal. *)
Definition lineShowing (n : Z) (e : Entry) : string :=
  NilZero.string_of_int (Z.to_int n) ++ ". [" ++ type e ++ "] " ++ name e
    ++ " — " ++ NilZero.string_of_int (Z.to_int (points e)).

(** One line per entry of [shown], numbered from [n] on. *)
Fixpoint numberedFrom (n : Z) (shown : list Entry) : list string :=
  match shown with
  | [] => []
  | e :: rest => lineShowing n e :: numberedFrom (n + 1) rest
  end.

(** [lines] (the seven heading lines, then the body) lists the entries of
    [roster], each once, in display order: [shown] is a rearrangement of
    [roster] in which every entry may be displayed before all later ones,
    and the body is the lines showing the entries of [shown], numbered
    from 1, in that order (for an empty roster the one line
    "(No units)"). *)
Definition listsInDisplayOrder (m : list (string * Z)) (roster shown : list Entry)
    (lines : list string) : Prop :=
  Permutation roster shown
  /\ StronglySorted (displayBefore m) shown
  /\ skipn 7 lines =
     match shown with
     | [] => ["(No units)"]
     | _ :: _ => numberedFrom 1 shown
     end.

(** The decision table of the status line, row by row: is the total 0,
    is it within the limit, is the list of problems empty, does the total
    equal the limit.  The two messages of the legal rows are parameters. *)
Definition decisionTable (legalExact legalSoFar : string) (total limit : Z)
    (problems : list string) : string * severity :=
  match total =? 0, total <=? limit, problems, total =? limit with
  | true, _, _, _ => ("Ready.", ok)
  | false, true, [], true => (legalExact, ok)
  | false, true, [], false => (numToString (limit - total) ++ legalSoFar, ok)
  | false, true, _ :: _, _ =>
      (numToString (limit - total) ++ " pts remaining. " ++ join " " problems, warn)
  | false, false, [], _ =>
      ("Over by " ++ numToString (total - limit) ++ " pts.", danger)
  | false, false, _ :: _, _ =>
      ("Over by " ++ numToString (total - limit) ++ " pts. " ++ join " " problems,
       danger)
  end.

(** ** The rest of the page: escaping, handlers, buttons *)

(** The double-quote character. *)
Definition dquote : ascii := ascii_of_nat 34.

(** [s.replaceAll(c, r)] for a one-character pattern [c]. *)
Fixpoint replaceAll (c : ascii) (r : string) (s : string) : string :=
  match s with
  | EmptyString => EmptyString
  | String a s' =>
      if Ascii.eqb a c then r ++ replaceAll c r s'
      else String a (replaceAll c r s')
  end.

(** [escapeHtml], the same chain of five [replaceAll] in both editions. *)
Definition escapeHtml (s : string) : string :=
  replaceAll "'" "&#039;"
    (replaceAll dquote "&quot;"
       (replaceAll ">" "&gt;"
          (replaceAll "<" "&lt;"
             (replaceAll "&" "&amp;" s)))).

Definition escapeAttr (s : string) : string := escapeHtml s.

(** [pointsLimit = Number(elPointsLimit.value)] *)
Definition setPointsLimit (value : Z) (st : State) : State :=
  {| gameData := gameData st;
     selectedFactionName := selectedFactionName st;
     pointsLimit := value;
     rosterEntries := rosterEntries st;
     nextId := nextId st;
     statusText := statusText st;
     statusDot := statusDot st |}.

(** [selectedFactionName = elFactionSelect.value] *)
Definition setSelectedFaction (value : string) (st : State) : State :=
  {| gameData := gameData st;
     selectedFactionName := value;
     pointsLimit := pointsLimit st;
     rosterEntries := rosterEntries st;
     nextId := nextId st;
     statusText := statusText st;
     statusDot := statusDot st |}.

(** What the page can be asked to do: the two dropdowns, the Add and
    Delete buttons, the Clear and Copy buttons.  An Add button is the one
    [renderUnits] made for a unit [u]; its [data-add] attribute holds the
    unit's name. *)
Inductive Event :=
| AddClicked (u : Unit)
| DeleteClicked (i : Z)
| ClearClicked
| LimitChanged (value : Z)
| FactionChanged (value : string)
| CopyClicked (clipboardOk : bool).

(** The listeners of [bindEvents], [renderUnits] and [renderRoster] in the
    Champion edition.  [renderUnits] rewrites the unit list only, so it
    leaves the state as it is; it runs after every change of the roster,
    the limit or the faction, so the [disabled] flag a button carries when
    it is clicked is the one computed from the state at the click. *)
Module ChampionPage.

(** The [disabled] flag [renderUnits] computes for the Add button of [u]. *)
Definition addDisabled (u : Unit) (st : State) : bool :=
  let comp := ChampionRules.computeForceComp st in
  let maxChampions := ChampionRules.getChampionCap (pointsLimit st) in
  let championsAtCap := ChampionRules.champions comp >=? maxChampions in
  let isChampion := typeIs (unit_type u) "Champion" in
  if isChampion && (maxChampions =? 0) then true
  else isChampion && championsAtCap.

(** The [reason] appended to the unit's line. *)
Definition disabledReason (u : Unit) (st : State) : string :=
  let maxChampions := ChampionRules.getChampionCap (pointsLimit st) in
  let isChampion := typeIs (unit_type u) "Champion" in
  if addDisabled u st && isChampion then
    if maxChampions =? 0
    then " (0 allowed at " ++ numToString (pointsLimit st) ++ ")"
    else " (cap " ++ numToString maxChampions ++ ")"
  else "".

Definition handle (ev : Event) (st : State) : State :=
  match ev with
  | AddClicked u =>
      (* if (btn.disabled) return; addUnit(btn.getAttribute("data-add")) *)
      if addDisabled u st then st
      else ChampionRules.addUnit (unit_name u) st
  | DeleteClicked i => ChampionRules.deleteEntry i st
  | ClearClicked => ChampionRules.renderRoster (clearRoster st)
  | LimitChanged value => ChampionRules.renderRoster (setPointsLimit value st)
  | FactionChanged value =>
      ChampionRules.renderRoster (clearRoster (setSelectedFaction value st))
  | CopyClicked clipboardOk =>
      snd (ChampionRules.copyRosterToClipboard clipboardOk st)
  end.

Definition handleAll (evs : list Event) (st : State) : State :=
  fold_left (fun s ev => handle ev s) evs st.

End ChampionPage.

(** The listeners of the Elite edition. *)
Module ElitePage.

Definition handle (ev : Event) (st : State) : State :=
  match ev with
  | AddClicked u => EliteRules.addUnit (unit_name u) st
  | DeleteClicked i => EliteRules.deleteEntry i st
  | ClearClicked => EliteRules.renderRoster (clearRoster st)
  | LimitChanged value => EliteRules.renderRoster (setPointsLimit value st)
  | FactionChanged value =>
      EliteRules.renderRoster (clearRoster (setSelectedFaction value st))
  | CopyClicked clipboardOk =>
      snd (EliteRules.copyRosterToClipboard clipboardOk st)
  end.

Definition handleAll (evs : list Event) (st : State) : State :=
  fold_left (fun s ev => handle ev s) evs st.

End ElitePage.

(** ** Notions for the properties of the whole page *)

(** Ids grow along the roster list and stay below the next id. *)
Definition wellNumbered (st : State) : Prop :=
  StronglySorted (fun a b => id a < id b) (rosterEntries st)
  /\ Forall (fun e => id e < nextId st) (rosterEntries st).

(** The entry [addUnit] makes of unit [u] under id [i]. *)
Definition entryOf (i : Z) (u : Unit) : Entry :=
  {| id := i; name := unit_name u; points := unit_points u;
     type := orDefault (unit_type u) "Core" |}.

(** [e] was made from a unit of the faction now selected. *)
Definition fromSelectedFaction (st : State) (e : Entry) : Prop :=
  exists f u,
    getSelectedFaction st = Some f
    /\ In u (faction_units f)
    /\ e = entryOf (id e) u.

(** [st'] is [st] grown by one entry made of unit [u]: appended under the
    next id, the next id advanced, the total raised by the unit's points,
    the count of the entry's type raised by one, and the status line
    showing [status] of the new state. *)
Definition grownBy (u : Unit) (status : State -> string * severity)
    (st st' : State) : Prop :=
  rosterEntries st' = List.app (rosterEntries st) [entryOf (nextId st) u]
  /\ nextId st' = nextId st + 1
  /\ getRosterTotal st' = getRosterTotal st + unit_points u
  /\ (forall t, countType t (rosterEntries st')
                = countType t (rosterEntries st)
                  + bump (orDefault (unit_type u) "Core") t)
  /\ statusText st' = fst (status st').

(** How one event can change the roster: not at all, by one entry made
    of a unit found in the selected faction, by dropping the entries of
    one id, or by emptying it and restarting the ids (the only case that
    may come with another faction). *)
Inductive rosterChange (st st' : State) : Prop :=
| rosterKept :
    rosterEntries st' = rosterEntries st -> nextId st' = nextId st ->
    selectedFactionName st' = selectedFactionName st ->
    rosterChange st st'
| rosterPushed (name : string) (u : Unit) :
    findUnitInSelectedFaction name st = Some u ->
    rosterEntries st' = List.app (rosterEntries st) [entryOf (nextId st) u] ->
    nextId st' = nextId st + 1 ->
    selectedFactionName st' = selectedFactionName st ->
    rosterChange st st'
| rosterRemoved (i : Z) :
    rosterEntries st' = filter (fun e => negb (id e =? i)) (rosterEntries st) ->
    nextId st' = nextId st ->
    selectedFactionName st' = selectedFactionName st ->
    rosterChange st st'
| rosterEmptied :
    rosterEntries st' = [] -> nextId st' = 1 ->
    rosterChange st st'.

(** Every unit of the catalogue costs more than 0 points. *)
Definition positiveCatalogue (st : State) : Prop :=
  forall factions f u,
    gameData st = Some factions -> In f factions -> In u (faction_units f) ->
    0 < unit_points u.

(** The catalogue and the roster hold positive points only. *)
Definition pricedRoster (st : State) : Prop :=
  positiveCatalogue st /\ Forall (fun e => 0 < points e) (rosterEntries st).

(** Display order by a rank [rk] and then by id, and the entries of [l]
    that have rank [r]. *)
Definition rankBefore (rk : Entry -> Z) (a b : Entry) : Prop :=
  rk a < rk b \/ (rk a = rk b /\ id a <= id b).

Definition rankGroup (rk : Entry -> Z) (l : list Entry) (r : Z) : list Entry :=
  filter (fun e => rk e =? r) l.

(** The display groups: the entries of rank 0, then 1, 2, 3 and 999, each
    group in roster order. *)
Definition byRank (fourth : string) (l : list Entry) : list Entry :=
  flat_map (fun r => filter (fun e => rankOf fourth (type e) =? r) l)
           [0; 1; 2; 3; 999].

(** The five characters [escapeHtml] rewrites. *)
Definition htmlSpecial (a : ascii) : bool :=
  Ascii.eqb a "&" || Ascii.eqb a "<" || Ascii.eqb a ">"
  || Ascii.eqb a dquote || Ascii.eqb a "'".

(** What [escapeHtml] makes of one character. *)
Definition escapeChar (a : ascii) : string :=
  if Ascii.eqb a "&" then "&amp;"
  else if Ascii.eqb a "<" then "&lt;"
  else if Ascii.eqb a ">" then "&gt;"
  else if Ascii.eqb a dquote then "&quot;"
  else if Ascii.eqb a "'" then "&#039;"
  else String a EmptyString.

(** ** Composition counts *)

Section Counting.

Lemma countType_nil t : countType t [] = 0.
Proof. reflexivity. Qed.

Lemma countType_cons t e l :
  countType t (e :: l) =
  (if String.eqb (type e) t then 1 else 0) + countType t l.
Proof.
  unfold countType; simpl.
  destruct (String.eqb (type e) t); simpl List.length; lia.
Qed.

Lemma countType_nonneg t l : 0 <= countType t l.
Proof. unfold countType; lia. Qed.

Lemma countType_app t l1 l2 :
  countType t (l1 ++ l2)%list = countType t l1 + countType t l2.
Proof.
  unfold countType. rewrite filter_app, length_app. lia.
Qed.

Lemma countKnown_cons order e l :
  countKnown order (e :: l) =
  (if existsb (String.eqb (type e)) order then 1 else 0) + countKnown order l.
Proof.
  unfold countKnown; simpl.
  destruct (existsb _ order); simpl List.length; lia.
Qed.

Ltac tally_cases e :=
  repeat match goal with
  | |- context [String.eqb (type e) ?s] =>
      let E := fresh "E" in
      destruct (String.eqb_spec (type e) s) as [E|E];
      [rewrite E in *; simpl|]
  end;
  repeat (f_equal; try lia).

(** One turn of the loop adds one to the counter of the entry's type,
    and to none when the type is not one of the four. *)
Lemma champion_tally_step a b c d e :
  ChampionRules.tally (a, b, c, d) e =
  (a + bump (type e) "Leader", b + bump (type e) "Core",
   c + bump (type e) "Special", d + bump (type e) "Champion").
Proof. unfold ChampionRules.tally, bump. tally_cases e. Qed.

Lemma elite_tally_step a b c d e :
  EliteRules.tally (a, b, c, d) e =
  (a + bump (type e) "Leader", b + bump (type e) "Core",
   c + bump (type e) "Special", d + bump (type e) "Elite").
Proof. unfold EliteRules.tally, bump. tally_cases e. Qed.

Lemma champion_tally_counts l : forall a b c d,
  fold_left ChampionRules.tally l (a, b, c, d) =
  (a + countType "Leader" l, b + countType "Core" l,
   c + countType "Special" l, d + countType "Champion" l).
Proof.
  induction l as [|e l IH]; intros a b c d.
  - simpl. rewrite !countType_nil, !Z.add_0_r. reflexivity.
  - cbn [fold_left]. rewrite champion_tally_step, IH, !countType_cons.
    unfold bump. repeat (f_equal; try lia).
Qed.

Lemma elite_tally_counts l : forall a b c d,
  fold_left EliteRules.tally l (a, b, c, d) =
  (a + countType "Leader" l, b + countType "Core" l,
   c + countType "Special" l, d + countType "Elite" l).
Proof.
  induction l as [|e l IH]; intros a b c d.
  - simpl. rewrite !countType_nil, !Z.add_0_r. reflexivity.
  - cbn [fold_left]. rewrite elite_tally_step, IH, !countType_cons.
    unfold bump. repeat (f_equal; try lia).
Qed.

Lemma champion_comp_counts st :
  ChampionRules.computeForceComp st =
  ChampionRules.mkForceComp
    (countType "Leader" (rosterEntries st))
    (countType "Core" (rosterEntries st))
    (countType "Special" (rosterEntries st))
    (countType "Champion" (rosterEntries st))
    (countType "Special" (rosterEntries st)).
Proof.
  unfold ChampionRules.computeForceComp.
  rewrite champion_tally_counts. reflexivity.
Qed.

Lemma elite_comp_counts st :
  EliteRules.computeForceComp st =
  EliteRules.mkForceComp
    (countType "Leader" (rosterEntries st))
    (countType "Core" (rosterEntries st))
    (countType "Special" (rosterEntries st))
    (countType "Elite" (rosterEntries st))
    (countType "Special" (rosterEntries st)
     + 2 * countType "Elite" (rosterEntries st)).
Proof.
  unfold EliteRules.computeForceComp.
  rewrite elite_tally_counts. reflexivity.
Qed.

End Counting.

(** C1.  [computeForceComp] returns [requiredCore] by the rule of the
    edition: in the Champion edition it is the number of Special entries
    (Champion entries add nothing to it); in the Elite edition it is the
    number of Special entries plus twice the number of Elite entries. *)
Theorem requiredCore_by_edition (st : State) :
  ChampionRules.requiredCore (ChampionRules.computeForceComp st)
    = countType "Special" (rosterEntries st)
  /\ EliteRules.requiredCore (EliteRules.computeForceComp st)
    = countType "Special" (rosterEntries st)
      + 2 * countType "Elite" (rosterEntries st).
Proof.
  rewrite champion_comp_counts, elite_comp_counts. split; reflexivity.
Qed.

Section CountsAndRosterSize.

Lemma known_bumps_champion t :
  bump t "Leader" + bump t "Core" + bump t "Special" + bump t "Champion"
  = if existsb (String.eqb t) ChampionRules.TYPE_ORDER then 1 else 0.
Proof.
  unfold bump, ChampionRules.TYPE_ORDER; simpl.
  repeat match goal with
  | |- context [String.eqb t ?s] =>
      destruct (String.eqb_spec t s) as [->|]; simpl; try reflexivity
  end.
Qed.

Lemma known_bumps_elite t :
  bump t "Leader" + bump t "Core" + bump t "Special" + bump t "Elite"
  = if existsb (String.eqb t) EliteRules.TYPE_ORDER then 1 else 0.
Proof.
  unfold bump, EliteRules.TYPE_ORDER; simpl.
  repeat match goal with
  | |- context [String.eqb t ?s] =>
      destruct (String.eqb_spec t s) as [->|]; simpl; try reflexivity
  end.
Qed.

Lemma champion_counts_sum l :
  countType "Leader" l + countType "Core" l + countType "Special" l
    + countType "Champion" l
  = countKnown ChampionRules.TYPE_ORDER l.
Proof.
  induction l as [|e l IH]; [reflexivity|].
  rewrite !countType_cons, countKnown_cons, <- known_bumps_champion, <- IH.
  unfold bump. lia.
Qed.

Lemma elite_counts_sum l :
  countType "Leader" l + countType "Core" l + countType "Special" l
    + countType "Elite" l
  = countKnown EliteRules.TYPE_ORDER l.
Proof.
  induction l as [|e l IH]; [reflexivity|].
  rewrite !countType_cons, countKnown_cons, <- known_bumps_elite, <- IH.
  unfold bump. lia.
Qed.

Lemma countKnown_le_length order l :
  countKnown order l <= Z.of_nat (List.length l).
Proof.
  unfold countKnown. apply inj_le, filter_length_le.
Qed.

End CountsAndRosterSize.

(** C4, as stated, fails on a roster holding one entry of a type outside
    the known set: every count is 0 while the roster has one entry. *)
Lemma counts_sum_unknown_type :
  let a := ChampionRules.computeForceComp heroOnly in
  let b := EliteRules.computeForceComp heroOnly in
  ChampionRules.leaders a + ChampionRules.core a + ChampionRules.special a
    + ChampionRules.champions a = 0
  /\ EliteRules.leaders b + EliteRules.core b + EliteRules.special b
    + EliteRules.elite b = 0
  /\ Z.of_nat (List.length (rosterEntries heroOnly)) = 1
  /\ ~ (ChampionRules.leaders a + ChampionRules.core a + ChampionRules.special a
          + ChampionRules.champions a
        = Z.of_nat (List.length (rosterEntries heroOnly)))
  /\ ~ (EliteRules.leaders b + EliteRules.core b + EliteRules.special b
          + EliteRules.elite b
        = Z.of_nat (List.length (rosterEntries heroOnly))).
Proof.
  vm_compute. repeat split; discriminate.
Qed.

(** C4, amended.  For every roster the four counts returned by
    [computeForceComp] are non-negative and their sum is the number of
    entries whose type is one of the edition's four known types; entries
    of any other type are counted nowhere, so the sum never exceeds the
    roster size. *)
Theorem counts_sum_known_entries (st : State) :
  let a := ChampionRules.computeForceComp st in
  let b := EliteRules.computeForceComp st in
  (0 <= ChampionRules.leaders a /\ 0 <= ChampionRules.core a
   /\ 0 <= ChampionRules.special a /\ 0 <= ChampionRules.champions a)
  /\ ChampionRules.leaders a + ChampionRules.core a + ChampionRules.special a
       + ChampionRules.champions a
     = countKnown ChampionRules.TYPE_ORDER (rosterEntries st)
  /\ (0 <= EliteRules.leaders b /\ 0 <= EliteRules.core b
      /\ 0 <= EliteRules.special b /\ 0 <= EliteRules.elite b)
  /\ EliteRules.leaders b + EliteRules.core b + EliteRules.special b
       + EliteRules.elite b
     = countKnown EliteRules.TYPE_ORDER (rosterEntries st)
  /\ countKnown ChampionRules.TYPE_ORDER (rosterEntries st)
       <= Z.of_nat (List.length (rosterEntries st))
  /\ countKnown EliteRules.TYPE_ORDER (rosterEntries st)
       <= Z.of_nat (List.length (rosterEntries st)).
Proof.
  intros a b. subst a b.
  rewrite champion_comp_counts, elite_comp_counts. simpl.
  repeat split; auto using countType_nonneg, countKnown_le_length,
    champion_counts_sum, elite_counts_sum.
Qed.

(** ** The status line *)

Section StatusLine.

Lemma statusCall_table legalSoFar total limit problems :
  statusCall legalSoFar total limit problems =
  decisionTable "Legal: exact points and legal force composition."
    legalSoFar total limit problems.
Proof.
  unfold statusCall, decisionTable.
  destruct (total =? 0); [reflexivity|].
  destruct (Z.leb_spec total limit) as [H|H];
    destruct problems as [|p ps]; cbn [List.length negb andb Z.of_nat Z.eqb].
  - rewrite (Z.max_r 0 (limit - total)) by lia. reflexivity.
  - rewrite (Z.max_r 0 (limit - total)) by lia. reflexivity.
  - rewrite (Z.max_r 0 (total - limit)) by lia. reflexivity.
  - rewrite (Z.max_r 0 (total - limit)) by lia. reflexivity.
Qed.

(** An interpolated number never starts with the letter R. *)
Lemma numToString_head n s : numToString n ++ s <> "Ready.".
Proof.
  unfold numToString.
  destruct (Z.to_int n) as [d|d]; destruct d; cbn; discriminate.
Qed.

Lemma statusCall_ready legalSoFar total limit problems :
  statusCall legalSoFar total limit problems = ("Ready.", ok) <-> total = 0.
Proof.
  rewrite statusCall_table. unfold decisionTable. split.
  - destruct (Z.eqb_spec total 0) as [|N]; [trivial|].
    destruct (total <=? limit), problems, (total =? limit);
      intros E; inversion E as [[M]]; try discriminate.
    exfalso. exact (numToString_head _ _ M).
  - intros ->. reflexivity.
Qed.

End StatusLine.

(** C2, as stated, fails where the total equals the limit and the
    composition is legal: the message set by the code names the "force
    composition", the table's message does not. *)
Lemma status_exact_message_differs :
  ChampionRules.renderRoster_status 300 300 []
    = ("Legal: exact points and legal force composition.", ok)
  /\ ChampionRules.renderRoster_status 300 300 []
    <> decisionTable "Legal: exact points and legal composition."
         " pts remaining. Legal so far." 300 300 [].
Proof.
  split; [reflexivity|]. vm_compute. discriminate.
Qed.

(** C2, amended.  For every total, limit and list of composition problems
    the status classification is the decision table with the message
    "Legal: exact points and legal force composition." in the exact-points
    row and, in the row below it, "<remaining> pts remaining. Legal so far."
    in the Champion edition and "<remaining> pts remaining. Force
    composition legal so far." in the Elite edition. *)
Theorem status_follows_table (total limit : Z) (problems : list string) :
  ChampionRules.renderRoster_status total limit problems
    = decisionTable "Legal: exact points and legal force composition."
        " pts remaining. Legal so far." total limit problems
  /\ EliteRules.renderRoster_status total limit problems
    = decisionTable "Legal: exact points and legal force composition."
        " pts remaining. Force composition legal so far." total limit problems.
Proof.
  split; apply statusCall_table.
Qed.

(** C3.  The status is [ok] with message "Ready." exactly when the total
    is 0, whatever the limit and the composition problems; this holds for
    the classification itself and for the status computed from a roster
    state, in both editions. *)
Theorem status_ready_iff_total_zero :
  (forall total limit problems,
     ChampionRules.renderRoster_status total limit problems = ("Ready.", ok)
     <-> total = 0)
  /\ (forall total limit problems,
     EliteRules.renderRoster_status total limit problems = ("Ready.", ok)
     <-> total = 0)
  /\ (forall st,
     ChampionRules.rosterStatus st = ("Ready.", ok) <-> getRosterTotal st = 0)
  /\ (forall st,
     EliteRules.rosterStatus st = ("Ready.", ok) <-> getRosterTotal st = 0).
Proof.
  repeat split; intros; try (apply (statusCall_ready _ _ _ _)); trivial;
    match goal with
    | H : _ = ("Ready.", ok) |- _ => apply (statusCall_ready _ _ _ _) in H; exact H
    end.
Qed.

(** C3 at a total of 0 with a limit of 300 and a Leaders problem pending. *)
Lemma status_ready_at_zero :
  ChampionRules.renderRoster_status 0 300 ["Leaders: need exactly 1 (you have 0)."]
    = ("Ready.", ok).
Proof.
  apply (proj1 status_ready_iff_total_zero 0 300
           ["Leaders: need exactly 1 (you have 0)."]).
  reflexivity.
Defined.

(** ** Adding units *)

Section Adding.

Lemma heroOnly_reached :
  ChampionRules.addUnit "Stray" (sampleStart 300) = heroOnly.
Proof. reflexivity. Qed.

Lemma renderRoster_roster_champion st :
  rosterEntries (ChampionRules.renderRoster st) = rosterEntries st
  /\ nextId (ChampionRules.renderRoster st) = nextId st.
Proof. split; reflexivity. Qed.

Lemma renderRoster_roster_elite st :
  rosterEntries (EliteRules.renderRoster st) = rosterEntries st
  /\ nextId (EliteRules.renderRoster st) = nextId st.
Proof. split; reflexivity. Qed.

Lemma orDefault_falsy t d : falsy t = true -> orDefault t d = d.
Proof.
  destruct t as [s|]; simpl; [|reflexivity].
  intros ->. reflexivity.
Qed.

Lemma typeIs_falsy t s : falsy t = true -> s <> "" -> typeIs t s = false.
Proof.
  destruct t as [s'|]; simpl; [|reflexivity].
  intros E N. apply String.eqb_eq in E. subst s'.
  apply String.eqb_neq. congruence.
Qed.

Lemma countType_middle t l1 e l2 :
  countType t (l1 ++ e :: l2)%list = countType t (l1 ++ l2)%list + bump (type e) t.
Proof.
  rewrite !countType_app, countType_cons. unfold bump. lia.
Qed.

End Adding.

(** C5.  In the Champion edition, when the number of Champion entries is
    at or above [floor(pointsLimit / 250)] (a cap of 0 included), [addUnit]
    on a Champion unit leaves the roster list and the next-id counter as
    they were, and sets the status line to the cap message with severity
    [warn]; it returns normally. *)
Theorem champion_add_at_cap (st : State) (unitName : string) (unit : Unit) :
  findUnitInSelectedFaction unitName st = Some unit ->
  unit_type unit = Some "Champion" ->
  pointsLimit st / 250 <= countType "Champion" (rosterEntries st) ->
  let st' := ChampionRules.addUnit unitName st in
  rosterEntries st' = rosterEntries st
  /\ nextId st' = nextId st
  /\ st' = setStatus ("Champion cap reached (" ++ numToString (pointsLimit st / 250)
                        ++ " max at " ++ numToString (pointsLimit st) ++ " pts).")
                     warn st
  /\ statusDot st' = "var(--warn)".
Proof.
  intros F T C st'. subst st'.
  unfold ChampionRules.addUnit. rewrite F, T.
  rewrite champion_comp_counts. cbn [typeIs ChampionRules.champions].
  unfold ChampionRules.getChampionCap.
  rewrite String.eqb_refl.
  replace (countType "Champion" (rosterEntries st) >=? pointsLimit st / 250)
    with true by (symmetry; apply Z.geb_le; exact C).
  repeat split.
Qed.

(** C5 at a limit of 200, where the cap is 0 and the roster is empty. *)
Lemma champion_add_at_cap_zero :
  let st' := ChampionRules.addUnit "Paragon" (sampleStart 200) in
  rosterEntries st' = [] /\ nextId st' = 1
  /\ st' = setStatus "Champion cap reached (0 max at 200 pts)." warn (sampleStart 200)
  /\ statusDot st' = "var(--warn)".
Proof.
  apply (champion_add_at_cap (sampleStart 200) "Paragon"
           (mkUnit "Paragon" 40 (Some "Champion"))).
  - reflexivity.
  - reflexivity.
  - vm_compute. discriminate.
Defined.

(** C10.  [addUnit] on a catalogue unit whose type is absent or empty
    appends an entry of type "Core" (with the next id, the unit's name and
    points); the Core count goes up by one and the other counts stay, and
    any roster that holds this entry counts it under Core.  Both
    editions. *)
Theorem untyped_unit_added_as_core (st : State) (unitName : string) (unit : Unit) :
  findUnitInSelectedFaction unitName st = Some unit ->
  falsy (unit_type unit) = true ->
  let e := {| id := nextId st; name := unit_name unit;
              points := unit_points unit; type := "Core" |} in
  let a := ChampionRules.addUnit unitName st in
  let b := EliteRules.addUnit unitName st in
  (rosterEntries a = (rosterEntries st ++ [e])%list
   /\ ChampionRules.computeForceComp a =
      ChampionRules.mkForceComp
        (ChampionRules.leaders (ChampionRules.computeForceComp st))
        (ChampionRules.core (ChampionRules.computeForceComp st) + 1)
        (ChampionRules.special (ChampionRules.computeForceComp st))
        (ChampionRules.champions (ChampionRules.computeForceComp st))
        (ChampionRules.requiredCore (ChampionRules.computeForceComp st)))
  /\ (rosterEntries b = (rosterEntries st ++ [e])%list
      /\ EliteRules.computeForceComp b =
         EliteRules.mkForceComp
           (EliteRules.leaders (EliteRules.computeForceComp st))
           (EliteRules.core (EliteRules.computeForceComp st) + 1)
           (EliteRules.special (EliteRules.computeForceComp st))
           (EliteRules.elite (EliteRules.computeForceComp st))
           (EliteRules.requiredCore (EliteRules.computeForceComp st)))
  /\ (forall later l1 l2,
        rosterEntries later = (l1 ++ e :: l2)%list ->
        ChampionRules.core (ChampionRules.computeForceComp later)
          = countType "Core" (l1 ++ l2)%list + 1
        /\ EliteRules.core (EliteRules.computeForceComp later)
          = countType "Core" (l1 ++ l2)%list + 1).
Proof.
  intros F T e a b.
  assert (Ra : rosterEntries a = (rosterEntries st ++ [e])%list).
  { subst a e. unfold ChampionRules.addUnit. rewrite F.
    rewrite (typeIs_falsy _ "Champion" T) by discriminate.
    cbn [andb]. rewrite (proj1 (renderRoster_roster_champion _)).
    cbn [pushEntry rosterEntries]. rewrite (orDefault_falsy _ _ T). reflexivity. }
  assert (Rb : rosterEntries b = (rosterEntries st ++ [e])%list).
  { subst b e. unfold EliteRules.addUnit. rewrite F.
    rewrite (proj1 (renderRoster_roster_elite _)).
    cbn [pushEntry rosterEntries]. rewrite (orDefault_falsy _ _ T). reflexivity. }
  repeat split; trivial.
  - rewrite !champion_comp_counts, Ra, !countType_app.
    cbn [ChampionRules.leaders ChampionRules.core ChampionRules.special
         ChampionRules.champions ChampionRules.requiredCore].
    subst e. rewrite !countType_cons, !countType_nil. cbn -[Z.add Z.mul].
    f_equal; lia.
  - rewrite !elite_comp_counts, Rb, !countType_app.
    cbn [EliteRules.leaders EliteRules.core EliteRules.special
         EliteRules.elite EliteRules.requiredCore].
    subst e. rewrite !countType_cons, !countType_nil. cbn -[Z.add Z.mul].
    f_equal; lia.
  - rewrite champion_comp_counts, H. cbn [ChampionRules.core].
    rewrite countType_middle. reflexivity.
  - rewrite elite_comp_counts, H. cbn [EliteRules.core].
    rewrite countType_middle. reflexivity.
Qed.

(** C10 on the sample unit that has no type. *)
Lemma untyped_follower_added_as_core :
  let e := {| id := 1; name := "Follower"; points := 3; type := "Core" |} in
  rosterEntries (ChampionRules.addUnit "Follower" (sampleStart 300)) = [e]
  /\ rosterEntries (EliteRules.addUnit "Follower" (sampleStart 300)) = [e]
  /\ ChampionRules.core
       (ChampionRules.computeForceComp
          (ChampionRules.addUnit "Follower" (sampleStart 300))) = 1.
Proof.
  pose proof (untyped_unit_added_as_core (sampleStart 300) "Follower"
                (mkUnit "Follower" 3 None) eq_refl eq_refl) as H.
  cbv zeta in H. destruct H as [[Ra Ca] [[Rb _] _]].
  intros e. split; [exact Ra|]. split; [exact Rb|].
  rewrite Ca. reflexivity.
Defined.

(** ** Totals, deletion and clearing *)

Section Totals.

Lemma sum_loop l : forall acc,
  fold_left (fun sum it => sum + points it) l acc = acc + sumPoints l.
Proof.
  induction l as [|e l IH]; intros acc; simpl.
  - lia.
  - rewrite IH. lia.
Qed.

Lemma getRosterTotal_sum st : getRosterTotal st = sumPoints (rosterEntries st).
Proof. unfold getRosterTotal. rewrite sum_loop. lia. Qed.

Lemma sumPoints_app l1 l2 : sumPoints (l1 ++ l2)%list = sumPoints l1 + sumPoints l2.
Proof. induction l1 as [|e l1 IH]; simpl; lia. Qed.

(** A pushed entry raises the total by the unit's points. *)
Lemma getRosterTotal_push unit st :
  getRosterTotal (pushEntry unit st) = getRosterTotal st + unit_points unit.
Proof.
  rewrite !getRosterTotal_sum. cbn [pushEntry rosterEntries].
  rewrite sumPoints_app. simpl. lia.
Qed.

(** Removing an id lowers the total by the points of the entries that
    carried it. *)
Lemma getRosterTotal_remove i st :
  getRosterTotal (removeById i st) =
  getRosterTotal st - sumPoints (filter (fun e => id e =? i) (rosterEntries st)).
Proof.
  rewrite !getRosterTotal_sum. cbn [removeById rosterEntries].
  induction (rosterEntries st) as [|e l IH]; simpl; [reflexivity|].
  destruct (id e =? i); simpl; lia.
Qed.

End Totals.

(** C6.  After any sequence of [addUnit], [deleteEntry] and [clearRoster]
    steps, from any state, [getRosterTotal] is the sum of the [points] of
    the entries then in the roster; on an emptied roster it is 0.  Both
    editions. *)
Theorem total_after_any_actions (acts : list Action) (st : State) :
  getRosterTotal (ChampionRules.run acts st)
    = sumPoints (rosterEntries (ChampionRules.run acts st))
  /\ getRosterTotal (EliteRules.run acts st)
    = sumPoints (rosterEntries (EliteRules.run acts st))
  /\ getRosterTotal (clearRoster st) = 0.
Proof.
  repeat split; try apply getRosterTotal_sum.
Qed.

Section Clearing.

Lemma clearRoster_entries st :
  rosterEntries (clearRoster st) = [] /\ nextId (clearRoster st) = 1.
Proof. split; reflexivity. Qed.

Lemma empty_roster_status_champion st :
  rosterEntries st = [] -> ChampionRules.rosterStatus st = ("Ready.", ok).
Proof.
  intros E. apply (statusCall_ready _ _ _ _).
  rewrite getRosterTotal_sum, E. reflexivity.
Qed.

Lemma empty_roster_status_elite st :
  rosterEntries st = [] -> EliteRules.rosterStatus st = ("Ready.", ok).
Proof.
  intros E. apply (statusCall_ready _ _ _ _).
  rewrite getRosterTotal_sum, E. reflexivity.
Qed.

End Clearing.

(** C7.  After [clearRoster] the roster list is empty and the next-id
    counter is 1, as in the initial state, and the total, the composition
    and the status classification are those of the freshly initialised
    roster (total 0, all counts 0, "Ready." with severity [ok]).  Both
    editions. *)
Theorem clearRoster_like_initial (st : State) (text dot : string) :
  let c := clearRoster st in
  let a0 := ChampionRules.initialState text dot in
  let b0 := EliteRules.initialState text dot in
  (rosterEntries c = [] /\ nextId c = 1)
  /\ (rosterEntries c = rosterEntries a0 /\ nextId c = nextId a0
      /\ getRosterTotal c = getRosterTotal a0
      /\ ChampionRules.computeForceComp c = ChampionRules.computeForceComp a0
      /\ ChampionRules.rosterStatus c = ChampionRules.rosterStatus a0
      /\ ChampionRules.ordered c = ChampionRules.ordered a0)
  /\ (rosterEntries c = rosterEntries b0 /\ nextId c = nextId b0
      /\ getRosterTotal c = getRosterTotal b0
      /\ EliteRules.computeForceComp c = EliteRules.computeForceComp b0
      /\ EliteRules.rosterStatus c = EliteRules.rosterStatus b0
      /\ EliteRules.ordered c = EliteRules.ordered b0)
  /\ (getRosterTotal c = 0
      /\ ChampionRules.computeForceComp c = ChampionRules.mkForceComp 0 0 0 0 0
      /\ EliteRules.computeForceComp c = EliteRules.mkForceComp 0 0 0 0 0
      /\ ChampionRules.rosterStatus c = ("Ready.", ok)
      /\ EliteRules.rosterStatus c = ("Ready.", ok)).
Proof.
  intros c a0 b0.
  assert (Sa : ChampionRules.rosterStatus c = ("Ready.", ok))
    by (apply empty_roster_status_champion; reflexivity).
  assert (Sb : EliteRules.rosterStatus c = ("Ready.", ok))
    by (apply empty_roster_status_elite; reflexivity).
  assert (Sa0 : ChampionRules.rosterStatus a0 = ("Ready.", ok))
    by (apply empty_roster_status_champion; reflexivity).
  assert (Sb0 : EliteRules.rosterStatus b0 = ("Ready.", ok))
    by (apply empty_roster_status_elite; reflexivity).
  rewrite Sa, Sb, Sa0, Sb0.
  repeat split.
Qed.

Section Deleting.

Lemma filter_twice {A : Type} (f : A -> bool) (l : list A) :
  filter f (filter f l) = filter f l.
Proof.
  induction l as [|x l IH]; simpl; [reflexivity|].
  destruct (f x) eqn:E; simpl; [rewrite E, IH|]; auto.
Qed.

Lemma filter_keeps_all {A : Type} (f : A -> bool) (l : list A) :
  (forall x, In x l -> f x = true) -> filter f l = l.
Proof.
  induction l as [|x l IH]; simpl; intros H; [reflexivity|].
  rewrite (H x) by auto. f_equal. apply IH. auto.
Qed.

Lemma removeById_twice i st : removeById i (removeById i st) = removeById i st.
Proof.
  unfold removeById; cbn [rosterEntries gameData selectedFactionName
    pointsLimit nextId statusText statusDot].
  rewrite filter_twice. reflexivity.
Qed.

Lemma removeById_absent i st :
  ~ In i (map id (rosterEntries st)) ->
  rosterEntries (removeById i st) = rosterEntries st.
Proof.
  intros N. cbn [removeById rosterEntries].
  apply filter_keeps_all. intros e He.
  apply negb_true_iff, Z.eqb_neq. intros E. subst i.
  apply N, in_map, He.
Qed.

(** The status computed by [renderRoster] reads the roster and the
    limit only, so an earlier status line does not influence it. *)
Lemma deleteEntry_twice_champion i st :
  ChampionRules.deleteEntry i (ChampionRules.deleteEntry i st)
  = ChampionRules.deleteEntry i st.
Proof.
  unfold ChampionRules.deleteEntry, ChampionRules.renderRoster.
  change (removeById i (setStatus ?m ?t ?s)) with (setStatus m t (removeById i s)).
  rewrite removeById_twice. reflexivity.
Qed.

Lemma deleteEntry_twice_elite i st :
  EliteRules.deleteEntry i (EliteRules.deleteEntry i st)
  = EliteRules.deleteEntry i st.
Proof.
  unfold EliteRules.deleteEntry, EliteRules.renderRoster.
  change (removeById i (setStatus ?m ?t ?s)) with (setStatus m t (removeById i s)).
  rewrite removeById_twice. reflexivity.
Qed.

End Deleting.

(** C8.  [deleteEntry] is idempotent: deleting an id a second time gives
    the state (so the roster) that the first deletion gave; and deleting
    an id that no entry carries leaves the roster list as it was.  Both
    editions. *)
Theorem deleteEntry_idempotent (st : State) (i : Z) :
  (ChampionRules.deleteEntry i (ChampionRules.deleteEntry i st)
     = ChampionRules.deleteEntry i st
   /\ EliteRules.deleteEntry i (EliteRules.deleteEntry i st)
     = EliteRules.deleteEntry i st)
  /\ (~ In i (map id (rosterEntries st)) ->
      rosterEntries (ChampionRules.deleteEntry i st) = rosterEntries st
      /\ rosterEntries (EliteRules.deleteEntry i st) = rosterEntries st).
Proof.
  split; [split|].
  - apply deleteEntry_twice_champion.
  - apply deleteEntry_twice_elite.
  - intros N. split; apply (removeById_absent i st N).
Qed.

(** C8 on a one-entry roster, deleting an id it does not hold. *)
Lemma deleteEntry_absent_id :
  ~ In 7 (map id (rosterEntries heroOnly))
  /\ rosterEntries (ChampionRules.deleteEntry 7 heroOnly) = rosterEntries heroOnly
  /\ rosterEntries (EliteRules.deleteEntry 7 heroOnly) = rosterEntries heroOnly.
Proof.
  assert (N : ~ In 7 (map id (rosterEntries heroOnly))).
  { simpl. intros [E|[]]. discriminate E. }
  split; [exact N|].
  exact (proj2 (deleteEntry_idempotent heroOnly 7) N).
Defined.

(** ** Display order of the exported roster *)

Section SortFacts.

Context {A : Type} (cmp : A -> A -> Z).

Hypothesis cmp_total : forall a b, cmp a b <= 0 \/ cmp b a <= 0.
Hypothesis cmp_trans : forall a b c, cmp a b <= 0 -> cmp b c <= 0 -> cmp a c <= 0.

Lemma insertSorted_perm a l : Permutation (a :: l) (insertSorted cmp a l).
Proof.
  induction l as [|b l IH]; simpl; [apply Permutation_refl|].
  destruct (cmp a b <=? 0); [apply Permutation_refl|].
  eapply perm_trans; [apply perm_swap|]. apply perm_skip, IH.
Qed.

Lemma sortWith_perm l : Permutation l (sortWith cmp l).
Proof.
  induction l as [|a l IH]; simpl; [constructor|].
  eapply perm_trans; [apply perm_skip, IH|]. apply insertSorted_perm.
Qed.

Lemma insertSorted_sorted a l :
  StronglySorted (notAfter cmp) l ->
  StronglySorted (notAfter cmp) (insertSorted cmp a l).
Proof.
  unfold notAfter.
  induction l as [|b l IH]; simpl; intros S.
  - repeat constructor.
  - inversion S as [|b' l' Sl Fl]; subst.
    destruct (Z.leb_spec (cmp a b) 0) as [Hab|Hab].
    + constructor; [exact S|].
      constructor; [exact Hab|].
      eapply Forall_impl; [|exact Fl].
      intros c Hbc. exact (cmp_trans _ _ _ Hab Hbc).
    + constructor; [apply IH, Sl|].
      eapply Permutation_Forall; [apply insertSorted_perm|].
      constructor; [|exact Fl].
      destruct (cmp_total a b) as [H|H]; [lia|exact H].
Qed.

Lemma sortWith_sorted l : StronglySorted (notAfter cmp) (sortWith cmp l).
Proof.
  induction l as [|a l IH]; simpl; [constructor|].
  apply insertSorted_sorted, IH.
Qed.

End SortFacts.

Section DisplayOrder.

Variable m : list (string * Z).

Lemma compareEntries_before a b :
  compareEntries m a b <= 0 <-> displayBefore m a b.
Proof.
  unfold compareEntries, displayBefore, typeRank.
  destruct (Z.eqb_spec (nullish (mapGet m (type a)) 999)
                       (nullish (mapGet m (type b)) 999)); simpl; lia.
Qed.

Lemma compareEntries_total a b :
  compareEntries m a b <= 0 \/ compareEntries m b a <= 0.
Proof.
  rewrite !compareEntries_before. unfold displayBefore. lia.
Qed.

Lemma compareEntries_trans a b c :
  compareEntries m a b <= 0 -> compareEntries m b c <= 0 ->
  compareEntries m a c <= 0.
Proof.
  rewrite !compareEntries_before. unfold displayBefore. lia.
Qed.

Lemma sorted_entries_display l :
  StronglySorted (displayBefore m) (sortWith (compareEntries m) l).
Proof.
  pose proof (sortWith_sorted (compareEntries m)
                compareEntries_total compareEntries_trans l) as S.
  induction S as [|a l' S IH F]; constructor; [exact IH|].
  eapply Forall_impl; [|exact F].
  intros b. apply compareEntries_before.
Qed.

Lemma mapIdx_entryLine_numbered l : forall i,
  mapIdx entryLine i l = numberedFrom (i + 1) l.
Proof.
  induction l as [|e l IH]; intros i; simpl; [reflexivity|].
  rewrite IH. reflexivity.
Qed.

Lemma sorted_entries_lines (heading : list string) l :
  List.length heading = 7%nat ->
  listsInDisplayOrder m l (sortWith (compareEntries m) l)
    (List.app heading
       (if Z.of_nat (List.length (sortWith (compareEntries m) l)) =? 0
        then ["(No units)"]
        else mapIdx entryLine 0 (sortWith (compareEntries m) l))).
Proof.
  intros H7.
  split; [apply sortWith_perm|]. split; [apply sorted_entries_display|].
  rewrite skipn_app, <- H7, skipn_all, H7, Nat.sub_diag. simpl.
  destruct (sortWith (compareEntries m) l); [reflexivity|].
  rewrite mapIdx_entryLine_numbered. reflexivity.
Qed.

End DisplayOrder.

Section Ranks.

Ltac rank_cases t :=
  repeat match goal with
  | |- context [String.eqb ?s t] => rewrite (String.eqb_sym s t)
  end;
  repeat match goal with
  | |- context [String.eqb t ?s] =>
      destruct (String.eqb_spec t s) as [->|]; [reflexivity|]
  end;
  reflexivity.

Lemma champion_ranks t :
  typeRank ChampionRules.TYPE_ORDER_MAP t = rankOf "Champion" t.
Proof.
  cbv [typeRank mapGet rankOf ChampionRules.TYPE_ORDER_MAP
       ChampionRules.TYPE_ORDER mapOfOrder mapIdx find fst].
  rank_cases t.
Qed.

Lemma elite_ranks t :
  typeRank EliteRules.TYPE_ORDER_MAP t = rankOf "Elite" t.
Proof.
  cbv [typeRank mapGet rankOf EliteRules.TYPE_ORDER_MAP
       EliteRules.TYPE_ORDER mapOfOrder mapIdx find fst].
  rank_cases t.
Qed.

End Ranks.

(** C9.  For every roster the exported text is the lines of
    [copyRosterToClipboard] joined by the newline character, and after the
    seven heading lines it has one line per roster entry, each entry once:
    the lines show the entries of the display order, numbered from 1, each
    as "<number>. [<type>] <name> — <points>".  The display order is a
    rearrangement of the roster ordered by type rank (Leader 0, Core 1,
    Special 2, the edition's fourth type 3, any other type 999) and, at
    equal rank, by ascending id.  Both editions. *)
Theorem export_lists_in_display_order (st : State) (clipboardOk : bool) :
  (fst (ChampionRules.copyRosterToClipboard clipboardOk st)
     = String.concat (String (ascii_of_nat 10) EmptyString)
         (ChampionRules.rosterLines st)
   /\ listsInDisplayOrder ChampionRules.TYPE_ORDER_MAP (rosterEntries st)
        (ChampionRules.ordered st) (ChampionRules.rosterLines st)
   /\ forall t, typeRank ChampionRules.TYPE_ORDER_MAP t = rankOf "Champion" t)
  /\ (fst (EliteRules.copyRosterToClipboard clipboardOk st)
        = String.concat (String (ascii_of_nat 10) EmptyString)
            (EliteRules.rosterLines st)
      /\ listsInDisplayOrder EliteRules.TYPE_ORDER_MAP (rosterEntries st)
           (EliteRules.ordered st) (EliteRules.rosterLines st)
      /\ forall t, typeRank EliteRules.TYPE_ORDER_MAP t = rankOf "Elite" t).
Proof.
  split; (split; [reflexivity|split]).
  - apply sorted_entries_lines. reflexivity.
  - apply champion_ranks.
  - apply sorted_entries_lines. reflexivity.
  - apply elite_ranks.
Qed.

(** C9 on a roster of a Special, a Stray of unknown type and a Leader,
    added in this order: the Leader is line 1, the Stray comes last. *)
Lemma export_lists_sample :
  skipn 7 (ChampionRules.rosterLines
             (ChampionRules.run [Add "Scout"; Add "Stray"; Add "Captain"]
                (sampleStart 300)))
  = [ "1. [Leader] Captain — 5"; "2. [Special] Scout — 8"; "3. [Hero] Stray — 3" ].
Proof.
  destruct (export_lists_in_display_order
              (ChampionRules.run [Add "Scout"; Add "Stray"; Add "Captain"]
                 (sampleStart 300)) true) as [[_ [[_ [_ L]] _]] _].
  rewrite L. reflexivity.
Defined.

(** ** Worked examples *)

Section Examples.

(** Champion edition, limit 300: a Leader, a Core and a Special unit. *)
Example champion_legal_so_far :
  let st := ChampionRules.run [Add "Captain"; Add "Levy"; Add "Scout"]
              (sampleStart 300) in
  ChampionRules.computeForceComp st = ChampionRules.mkForceComp 1 1 1 0 1
  /\ getRosterTotal st = 23
  /\ ChampionRules.rosterStatus st = ("277 pts remaining. Legal so far.", ok).
Proof. repeat split. Qed.

(** Elite edition, limit 200: a Leader and an Elite unit, no Core. *)
Example elite_needs_core :
  let st := EliteRules.run [Add "Captain"; Add "Veteran"] (sampleStart 200) in
  EliteRules.requiredCore (EliteRules.computeForceComp st) = 2
  /\ EliteRules.rosterStatus st
     = ("165 pts remaining. Core: need at least 2 (you have 0).", warn).
Proof. repeat split. Qed.

(** Display order: by rank, then by id; the unknown type comes last. *)
Example champion_display_order :
  map id (ChampionRules.ordered
            (ChampionRules.run
               [Add "Scout"; Add "Stray"; Add "Paragon"; Add "Levy";
                Add "Captain"; Add "Follower"; Delete 4; Add "Levy"]
               (sampleStart 300)))
  = [5; 6; 7; 1; 3; 2].
Proof. reflexivity. Qed.

(** A second Champion at limit 300 (cap 1) is turned away. *)
Example champion_second_refused :
  let st := ChampionRules.run [Add "Paragon"; Add "Paragon"] (sampleStart 300) in
  map id (rosterEntries st) = [1] /\ nextId st = 2
  /\ statusText st = "Champion cap reached (1 max at 300 pts)."
  /\ statusDot st = "var(--warn)".
Proof. repeat split. Qed.

End Examples.

(** ** HTML escaping *)

Section Escaping.

Lemma append_assoc_str (a b c : string) : (a ++ b) ++ c = a ++ (b ++ c).
Proof. induction a as [|x a IH]; simpl; [reflexivity|]. now rewrite IH. Qed.

Lemma length_append_str (a b : string) :
  String.length (a ++ b) = (String.length a + String.length b)%nat.
Proof. induction a as [|x a IH]; simpl; [reflexivity|]. now rewrite IH. Qed.

Lemma chars_append (a b : string) :
  list_ascii_of_string (a ++ b)
  = (list_ascii_of_string a ++ list_ascii_of_string b)%list.
Proof. induction a as [|x a IH]; simpl; [reflexivity|]. now rewrite IH. Qed.

Ltac ascii_cases a :=
  repeat match goal with
  | |- context [Ascii.eqb a ?c] =>
      destruct (Ascii.eqb_spec a c) as [->|]; [reflexivity|]
  end.

(** The five passes together rewrite the text character by character: a
    pass never touches what an earlier pass wrote. *)
Lemma escapeHtml_cons a s :
  escapeHtml (String a s) = escapeChar a ++ escapeHtml s.
Proof.
  unfold escapeHtml, escapeChar.
  cbn [replaceAll].
  destruct (Ascii.eqb_spec a "&") as [->|]; [reflexivity|].
  cbn [replaceAll].
  destruct (Ascii.eqb_spec a "<") as [->|]; [reflexivity|].
  cbn [replaceAll].
  destruct (Ascii.eqb_spec a ">") as [->|]; [reflexivity|].
  cbn [replaceAll].
  destruct (Ascii.eqb_spec a dquote) as [->|]; [reflexivity|].
  cbn [replaceAll].
  destruct (Ascii.eqb_spec a "'") as [->|]; reflexivity.
Qed.

Lemma escapeHtml_app_str s1 s2 :
  escapeHtml (s1 ++ s2) = escapeHtml s1 ++ escapeHtml s2.
Proof.
  induction s1 as [|a s1 IH]; [reflexivity|].
  cbn [append]. rewrite !escapeHtml_cons, IH, append_assoc_str. reflexivity.
Qed.

Lemma escapeChar_length a :
  String.length (escapeChar a) = if htmlSpecial a then
    (if Ascii.eqb a "&" then 5 else
     if Ascii.eqb a "<" then 4 else
     if Ascii.eqb a ">" then 4 else 6)%nat
  else 1%nat.
Proof.
  unfold escapeChar, htmlSpecial.
  repeat match goal with
  | |- context [Ascii.eqb a ?c] =>
      destruct (Ascii.eqb_spec a c) as [->|]; [reflexivity|]
  end.
  reflexivity.
Qed.

Lemma escapeChar_grows a :
  (1 <= String.length (escapeChar a))%nat
  /\ (htmlSpecial a = true -> 4 <= String.length (escapeChar a))%nat.
Proof.
  rewrite escapeChar_length.
  destruct (htmlSpecial a); [|split; [lia|discriminate]].
  destruct (Ascii.eqb a "&"), (Ascii.eqb a "<"), (Ascii.eqb a ">"); split; lia.
Qed.

Lemma escapeHtml_length s :
  (String.length s <= String.length (escapeHtml s))%nat.
Proof.
  induction s as [|a s IH]; [reflexivity|].
  rewrite escapeHtml_cons, length_append_str. simpl.
  pose proof (proj1 (escapeChar_grows a)). lia.
Qed.

Lemma escapeChar_safe a :
  Forall (fun c => c <> "<"%char /\ c <> ">"%char /\ c <> dquote /\ c <> "'"%char)
         (list_ascii_of_string (escapeChar a)).
Proof.
  unfold escapeChar.
  destruct (Ascii.eqb_spec a "&") as [->|];
    [repeat constructor; discriminate|].
  destruct (Ascii.eqb_spec a "<") as [->|];
    [repeat constructor; discriminate|].
  destruct (Ascii.eqb_spec a ">") as [->|];
    [repeat constructor; discriminate|].
  destruct (Ascii.eqb_spec a dquote) as [->|];
    [repeat constructor; discriminate|].
  destruct (Ascii.eqb_spec a "'") as [->|];
    [repeat constructor; discriminate|].
  repeat constructor; assumption.
Qed.

End Escaping.

(** X1.  [escapeHtml] works character by character: each of the five
    special characters becomes its entity, every other character stays, and
    the escape of a concatenation is the concatenation of the escapes. *)
Theorem escapeHtml_charwise (a : ascii) (s s1 s2 : string) :
  escapeHtml "" = ""
  /\ escapeHtml (String a s) = escapeChar a ++ escapeHtml s
  /\ escapeHtml (s1 ++ s2) = escapeHtml s1 ++ escapeHtml s2.
Proof.
  split; [reflexivity|]. split; [apply escapeHtml_cons|apply escapeHtml_app_str].
Qed.

(** X2.  The text [escapeHtml] returns holds none of the characters
    [<], [>], double quote and single quote. *)
Theorem escapeHtml_no_markup (s : string) :
  Forall (fun c => c <> "<"%char /\ c <> ">"%char /\ c <> dquote /\ c <> "'"%char)
         (list_ascii_of_string (escapeHtml s)).
Proof.
  induction s as [|a s IH]; [constructor|].
  rewrite escapeHtml_cons, chars_append.
  apply Forall_app. split; [apply escapeChar_safe|exact IH].
Qed.

Section EscapingBack.

Lemma escapeChar_clean a :
  htmlSpecial a = false -> escapeChar a = String a EmptyString.
Proof.
  unfold htmlSpecial, escapeChar.
  destruct (Ascii.eqb a "&"), (Ascii.eqb a "<"), (Ascii.eqb a ">"),
    (Ascii.eqb a dquote), (Ascii.eqb a "'"); simpl; intros E;
    try discriminate E; reflexivity.
Qed.

(** Two escaped texts that agree start with the same character escaped. *)
Lemma escapeChar_head a b x y :
  escapeChar a ++ x = escapeChar b ++ y -> a = b /\ x = y.
Proof.
  unfold escapeChar.
  destruct (Ascii.eqb_spec a "&") as [->|Na1];
  [|destruct (Ascii.eqb_spec a "<") as [->|Na2];
  [|destruct (Ascii.eqb_spec a ">") as [->|Na3];
  [|destruct (Ascii.eqb_spec a dquote) as [->|Na4];
  [|destruct (Ascii.eqb_spec a "'") as [->|Na5]]]]];
  (destruct (Ascii.eqb_spec b "&") as [->|Nb1];
  [|destruct (Ascii.eqb_spec b "<") as [->|Nb2];
  [|destruct (Ascii.eqb_spec b ">") as [->|Nb3];
  [|destruct (Ascii.eqb_spec b dquote) as [->|Nb4];
  [|destruct (Ascii.eqb_spec b "'") as [->|Nb5]]]]]);
  cbn [append]; intros H; inversion H; subst;
  try (split; reflexivity); try congruence; exfalso; congruence.
Qed.

Lemma escapeHtml_nonempty a s : escapeHtml (String a s) <> "".
Proof.
  intros E. pose proof (escapeHtml_length (String a s)) as L.
  rewrite E in L. simpl in L. lia.
Qed.

End EscapingBack.

(** X3.  [escapeHtml] loses nothing: two texts with the same escape are
    the same text. *)
Theorem escapeHtml_injective (s1 s2 : string) :
  escapeHtml s1 = escapeHtml s2 -> s1 = s2.
Proof.
  revert s2. induction s1 as [|a s1 IH]; intros [|b s2] E.
  - reflexivity.
  - symmetry in E. destruct (escapeHtml_nonempty _ _ E).
  - destruct (escapeHtml_nonempty _ _ E).
  - rewrite !escapeHtml_cons in E.
    apply escapeChar_head in E. destruct E as [-> E].
    f_equal. apply IH, E.
Qed.

(** X3 on two spellings of one text. *)
Lemma escapeHtml_injective_sample :
  "<" ++ "b>" = "<b" ++ ">".
Proof.
  apply (escapeHtml_injective ("<" ++ "b>") ("<b" ++ ">")). reflexivity.
Defined.

(** X4.  [escapeHtml] returns its argument unchanged exactly when the
    argument holds none of the five special characters; it never returns a
    shorter text. *)
Theorem escapeHtml_fixed_iff_plain (s : string) :
  (escapeHtml s = s
   <-> forallb (fun a => negb (htmlSpecial a)) (list_ascii_of_string s) = true)
  /\ (String.length s <= String.length (escapeHtml s))%nat.
Proof.
  split; [|apply escapeHtml_length].
  induction s as [|a s IH]; [split; reflexivity|].
  rewrite escapeHtml_cons. cbn [list_ascii_of_string forallb].
  destruct (htmlSpecial a) eqn:Sp; cbn [negb andb].
  - split; [|discriminate]. intros E. exfalso.
    apply (f_equal String.length) in E.
    rewrite length_append_str in E. simpl in E.
    pose proof (proj2 (escapeChar_grows a) Sp).
    pose proof (escapeHtml_length s). lia.
  - rewrite (escapeChar_clean a Sp). cbn [append].
    rewrite <- IH. split; intros E; [inversion E as [E']; rewrite E'|f_equal]; auto.
Qed.

(** X4 on a unit name without special characters. *)
Lemma escapeHtml_plain_sample : escapeHtml "Captain" = "Captain".
Proof.
  apply (proj2 (proj1 (escapeHtml_fixed_iff_plain "Captain"))). reflexivity.
Defined.

(** ** Looking units up and adding them *)

Section Lookup.

Lemma find_none_names name units :
  find (fun u => String.eqb (unit_name u) name) units = None ->
  ~ In name (map unit_name units).
Proof.
  intros F I. apply in_map_iff in I. destruct I as [u [E I]].
  pose proof (find_none _ _ F u I) as N. simpl in N.
  rewrite E, String.eqb_refl in N. discriminate.
Qed.

Lemma getSelectedFaction_some st f :
  getSelectedFaction st = Some f ->
  exists factions, gameData st = Some factions /\ In f factions
                   /\ faction_name f = selectedFactionName st.
Proof.
  unfold getSelectedFaction. destruct (gameData st) as [factions|]; [|discriminate].
  intros F. apply find_some in F. destruct F as [I E].
  exists factions. repeat split; trivial. apply String.eqb_eq, E.
Qed.

Lemma findUnit_some name st u :
  findUnitInSelectedFaction name st = Some u ->
  exists f, getSelectedFaction st = Some f /\ In u (faction_units f)
            /\ unit_name u = name.
Proof.
  unfold findUnitInSelectedFaction.
  destruct (getSelectedFaction st) as [f|]; [|discriminate].
  intros F. apply find_some in F. destruct F as [I E].
  exists f. repeat split; trivial. apply String.eqb_eq, E.
Qed.

Lemma findUnit_none name st :
  (forall f, getSelectedFaction st = Some f ->
             ~ In name (map unit_name (faction_units f))) ->
  findUnitInSelectedFaction name st = None.
Proof.
  unfold findUnitInSelectedFaction. intros H.
  destruct (getSelectedFaction st) as [f|]; [|reflexivity].
  destruct (find _ (faction_units f)) as [u|] eqn:F; [|reflexivity].
  apply find_some in F. destruct F as [I E].
  exfalso. apply (H f eq_refl). apply in_map_iff. exists u.
  split; [apply String.eqb_eq, E|exact I].
Qed.

Lemma pushed_counts t u st :
  countType t (rosterEntries (pushEntry u st))
  = countType t (rosterEntries st) + bump (orDefault (unit_type u) "Core") t.
Proof.
  cbn [pushEntry rosterEntries]. rewrite countType_app, countType_cons, countType_nil.
  unfold bump. cbn [type]. lia.
Qed.

End Lookup.

(** X5.  [findUnitInSelectedFaction] answers from the selected faction
    only: a unit it returns belongs to the faction of the catalogue whose
    name is the selected one and carries the name asked for; it returns
    nothing exactly when the catalogue is not loaded, no faction has the
    selected name, or no unit of that faction has the name. *)
Theorem findUnit_in_selected_faction (name : string) (st : State) :
  match findUnitInSelectedFaction name st with
  | Some u =>
      exists factions f,
        gameData st = Some factions /\ In f factions
        /\ faction_name f = selectedFactionName st
        /\ getSelectedFaction st = Some f
        /\ In u (faction_units f) /\ unit_name u = name
  | None =>
      match getSelectedFaction st with
      | Some f => ~ In name (map unit_name (faction_units f))
      | None =>
          match gameData st with
          | Some factions =>
              ~ In (selectedFactionName st) (map faction_name factions)
          | None => True
          end
      end
  end.
Proof.
  destruct (findUnitInSelectedFaction name st) as [u|] eqn:F.
  - destruct (findUnit_some _ _ _ F) as [f [G [I E]]].
    destruct (getSelectedFaction_some _ _ G) as [factions [D [If Ef]]].
    exists factions, f. repeat split; trivial.
  - unfold findUnitInSelectedFaction in F.
    destruct (getSelectedFaction st) as [f|] eqn:G.
    + apply find_none_names, F.
    + unfold getSelectedFaction in G.
      destruct (gameData st) as [factions|]; [|exact I].
      intros I. apply in_map_iff in I. destruct I as [f [E I]].
      pose proof (find_none _ _ G f I) as N. simpl in N.
      rewrite E, String.eqb_refl in N. discriminate.
Qed.

(** X6.  [addUnit] with a name that no unit of the selected faction
    carries (or with no faction selected, or no catalogue loaded) changes
    nothing at all: roster, next id and status line stay.  Both editions. *)
Theorem addUnit_unknown_name (name : string) (st : State) :
  (forall f, getSelectedFaction st = Some f ->
             ~ In name (map unit_name (faction_units f))) ->
  ChampionRules.addUnit name st = st /\ EliteRules.addUnit name st = st.
Proof.
  intros H. unfold ChampionRules.addUnit, EliteRules.addUnit.
  rewrite (findUnit_none _ _ H). split; reflexivity.
Qed.

(** X6 on the sample catalogue. *)
Lemma addUnit_unknown_name_sample :
  ChampionRules.addUnit "Nobody" (sampleStart 300) = sampleStart 300
  /\ EliteRules.addUnit "Nobody" (sampleStart 300) = sampleStart 300.
Proof.
  apply (addUnit_unknown_name "Nobody" (sampleStart 300)).
  intros f G. injection G as <-. simpl.
  intros I. repeat (destruct I as [I|I]; [discriminate I|]). exact I.
Defined.

(** X7.  When [addUnit] finds the unit, the Elite edition always, and the
    Champion edition unless the unit is a Champion at the cap, appends one
    entry made of the unit under the next id, advances the next id by one,
    raises the total by the unit's points, adds one to the count of the
    entry's type alone, and shows the status of the new roster. *)
Theorem addUnit_appends (name : string) (st : State) (u : Unit) :
  findUnitInSelectedFaction name st = Some u ->
  grownBy u EliteRules.rosterStatus st (EliteRules.addUnit name st)
  /\ (unit_type u <> Some "Champion"
      \/ countType "Champion" (rosterEntries st) < pointsLimit st / 250 ->
      grownBy u ChampionRules.rosterStatus st (ChampionRules.addUnit name st)).
Proof.
  intros F.
  assert (P : forall render status,
    (forall s, rosterEntries (render s) = rosterEntries s) ->
    (forall s, nextId (render s) = nextId s) ->
    (forall s, statusText (render s) = fst (status (render s))) ->
    grownBy u status st (render (pushEntry u st))).
  { intros render status Hr Hn Hs. unfold grownBy.
    rewrite Hr, Hn. repeat split; trivial.
    - rewrite !getRosterTotal_sum, Hr. cbn [pushEntry rosterEntries].
      rewrite sumPoints_app. simpl. lia.
    - intros t. apply pushed_counts. }
  split.
  - unfold EliteRules.addUnit. rewrite F. apply P; reflexivity.
  - intros C. unfold ChampionRules.addUnit. rewrite F.
    rewrite champion_comp_counts. cbn [ChampionRules.champions].
    unfold ChampionRules.getChampionCap.
    replace (typeIs (unit_type u) "Champion"
             && (countType "Champion" (rosterEntries st) >=? pointsLimit st / 250))
      with false; [apply P; reflexivity|].
    symmetry. apply andb_false_iff. destruct C as [C|C].
    + left. destruct (unit_type u) as [s|]; [|reflexivity].
      apply String.eqb_neq. congruence.
    + right. rewrite Z.geb_leb. apply Z.leb_gt. exact C.
Qed.

(** X7 on the first Champion at limit 300, where the cap is 1. *)
Lemma addUnit_appends_sample :
  rosterEntries (ChampionRules.addUnit "Paragon" (sampleStart 300))
    = [entryOf 1 (mkUnit "Paragon" 40 (Some "Champion"))]
  /\ nextId (ChampionRules.addUnit "Paragon" (sampleStart 300)) = 2.
Proof.
  pose proof (addUnit_appends "Paragon" (sampleStart 300)
                (mkUnit "Paragon" 40 (Some "Champion")) eq_refl) as H.
  destruct H as [_ H].
  assert (C : unit_type (mkUnit "Paragon" 40 (Some "Champion")) <> Some "Champion"
              \/ countType "Champion" (rosterEntries (sampleStart 300))
                 < pointsLimit (sampleStart 300) / 250)
    by (right; reflexivity).
  destruct (H C) as [R [N _]].
  split; [exact R|exact N].
Defined.

(** ** The Champion cap: buttons and roster *)

Section ChampionCap.

Lemma addDisabled_simpl u st :
  ChampionPage.addDisabled u st
  = typeIs (unit_type u) "Champion"
    && (pointsLimit st / 250 <=? countType "Champion" (rosterEntries st)).
Proof.
  unfold ChampionPage.addDisabled. rewrite champion_comp_counts.
  cbn [ChampionRules.champions]. unfold ChampionRules.getChampionCap.
  rewrite Z.geb_leb.
  destruct (typeIs (unit_type u) "Champion"); [|reflexivity].
  cbn [andb]. destruct (Z.eqb_spec (pointsLimit st / 250) 0) as [E|_]; [|reflexivity].
  rewrite E. symmetry. apply Z.leb_le, countType_nonneg.
Qed.

Lemma champion_addUnit_cases name st u :
  findUnitInSelectedFaction name st = Some u ->
  ChampionRules.addUnit name st =
  if ChampionPage.addDisabled u st
  then setStatus ("Champion cap reached (" ++ numToString (pointsLimit st / 250)
                    ++ " max at " ++ numToString (pointsLimit st) ++ " pts).")
                 warn st
  else ChampionRules.renderRoster (pushEntry u st).
Proof.
  intros F. unfold ChampionRules.addUnit. rewrite F, addDisabled_simpl.
  rewrite champion_comp_counts. cbn [ChampionRules.champions].
  unfold ChampionRules.getChampionCap. rewrite Z.geb_leb. reflexivity.
Qed.

Lemma not_champion_bump t :
  typeIs t "Champion" = false -> bump (orDefault t "Core") "Champion" = 0.
Proof.
  unfold bump. destruct t as [s|]; simpl; [|reflexivity].
  destruct (String.eqb_spec s "") as [->|_]; [reflexivity|].
  intros ->. reflexivity.
Qed.

Lemma is_champion_bump t :
  typeIs t "Champion" = true -> bump (orDefault t "Core") "Champion" = 1.
Proof.
  unfold bump. destruct t as [s|]; simpl; [|discriminate].
  intros E. apply String.eqb_eq in E. subst s. reflexivity.
Qed.

Lemma countType_filter_le t (f : Entry -> bool) l :
  countType t (filter f l) <= countType t l.
Proof.
  induction l as [|e l IH]; simpl; [lia|].
  destruct (f e); rewrite ?countType_cons; [lia|].
  destruct (String.eqb (type e) t); lia.
Qed.

(** One action keeps the limit and keeps the Champions within the cap. *)
Lemma champion_perform_within_cap a st :
  countType "Champion" (rosterEntries st) <= pointsLimit st / 250 ->
  pointsLimit (ChampionRules.perform a st) = pointsLimit st
  /\ countType "Champion" (rosterEntries (ChampionRules.perform a st))
     <= pointsLimit st / 250.
Proof.
  intros C. destruct a as [name|i|]; cbn [ChampionRules.perform].
  - destruct (findUnitInSelectedFaction name st) as [u|] eqn:F.
    + rewrite (champion_addUnit_cases _ _ _ F), addDisabled_simpl.
      destruct (typeIs (unit_type u) "Champion") eqn:T; cbn [andb].
      * destruct (Z.leb_spec (pointsLimit st / 250)
                    (countType "Champion" (rosterEntries st))) as [L|L].
        -- split; [reflexivity|exact C].
        -- split; [reflexivity|].
           change (rosterEntries (ChampionRules.renderRoster (pushEntry u st)))
             with (rosterEntries (pushEntry u st)).
           rewrite pushed_counts, (is_champion_bump _ T). lia.
      * split; [reflexivity|].
        change (rosterEntries (ChampionRules.renderRoster (pushEntry u st)))
          with (rosterEntries (pushEntry u st)).
        rewrite pushed_counts, (not_champion_bump _ T). lia.
    + unfold ChampionRules.addUnit. rewrite F. split; [reflexivity|exact C].
  - split; [reflexivity|].
    change (rosterEntries (ChampionRules.deleteEntry i st))
      with (filter (fun e => negb (id e =? i)) (rosterEntries st)).
    pose proof (countType_filter_le "Champion"
                  (fun e => negb (id e =? i)) (rosterEntries st)). lia.
  - split; [reflexivity|].
    pose proof (countType_nonneg "Champion" (rosterEntries st)).
    cbn [clearRoster rosterEntries]. rewrite countType_nil. lia.
Qed.

End ChampionCap.

(** X8.  In the Champion edition the Add button of a unit is disabled
    exactly when the unit is a Champion and the roster already holds
    [floor(pointsLimit / 250)] Champions or more, and that is exactly when
    [addUnit] would turn the unit away: disabled means the roster stays and
    a warning shows, enabled means one entry is appended.  The reason
    shown beside the unit is empty exactly when the button is enabled. *)
Theorem addDisabled_agrees_with_addUnit (name : string) (st : State) (u : Unit) :
  findUnitInSelectedFaction name st = Some u ->
  ChampionPage.addDisabled u st
    = typeIs (unit_type u) "Champion"
      && (pointsLimit st / 250 <=? countType "Champion" (rosterEntries st))
  /\ (if ChampionPage.addDisabled u st
      then rosterEntries (ChampionRules.addUnit name st) = rosterEntries st
           /\ nextId (ChampionRules.addUnit name st) = nextId st
           /\ statusDot (ChampionRules.addUnit name st) = "var(--warn)"
      else rosterEntries (ChampionRules.addUnit name st)
             = (rosterEntries st ++ [entryOf (nextId st) u])%list
           /\ nextId (ChampionRules.addUnit name st) = nextId st + 1)
  /\ (ChampionPage.disabledReason u st = ""
      <-> ChampionPage.addDisabled u st = false).
Proof.
  intros F. split; [apply addDisabled_simpl|]. split.
  - rewrite (champion_addUnit_cases _ _ _ F).
    destruct (ChampionPage.addDisabled u st); repeat split.
  - unfold ChampionPage.disabledReason.
    pose proof (addDisabled_simpl u st) as E.
    destruct (ChampionPage.addDisabled u st).
    + symmetry in E. apply andb_true_iff in E. destruct E as [T _].
      rewrite T. cbn [andb].
      destruct (ChampionRules.getChampionCap (pointsLimit st) =? 0);
        cbn [append]; split; discriminate.
    + cbn [andb]. split; reflexivity.
Qed.

(** X8 on the Champion of the sample catalogue at limit 200 (cap 0). *)
Lemma addDisabled_sample :
  ChampionPage.addDisabled (mkUnit "Paragon" 40 (Some "Champion")) (sampleStart 200)
    = true
  /\ rosterEntries (ChampionRules.addUnit "Paragon" (sampleStart 200)) = [].
Proof.
  pose proof (addDisabled_agrees_with_addUnit "Paragon" (sampleStart 200)
                (mkUnit "Paragon" 40 (Some "Champion")) eq_refl) as [D [A _]].
  split; [rewrite D; reflexivity|].
  rewrite D in A. exact (proj1 A).
Defined.

(** X9.  In the Champion edition, a roster whose Champions are within the
    cap stays within it under any sequence of [addUnit], [deleteEntry] and
    [clearRoster], none of which changes the points limit; changing the
    limit to a value at least as high keeps it within the cap too. *)
Theorem champions_stay_within_cap (acts : list Action) (st : State) (value : Z) :
  countType "Champion" (rosterEntries st) <= pointsLimit st / 250 ->
  (pointsLimit (ChampionRules.run acts st) = pointsLimit st
   /\ countType "Champion" (rosterEntries (ChampionRules.run acts st))
      <= ChampionRules.getChampionCap (pointsLimit (ChampionRules.run acts st)))
  /\ (pointsLimit st <= value ->
      countType "Champion"
        (rosterEntries (ChampionPage.handle (LimitChanged value) st))
      <= ChampionRules.getChampionCap
           (pointsLimit (ChampionPage.handle (LimitChanged value) st))).
Proof.
  intros C. split.
  - unfold ChampionRules.run, ChampionRules.getChampionCap.
    revert st C. induction acts as [|a acts IH]; intros st C.
    + split; [reflexivity|exact C].
    + cbn [fold_left].
      destruct (champion_perform_within_cap a st C) as [L C'].
      rewrite <- L in C'. destruct (IH _ C') as [L2 C2].
      rewrite L2, L. split; [reflexivity|].
      rewrite L2, L in C2. exact C2.
  - intros V. cbn. unfold ChampionRules.getChampionCap.
    pose proof (Z.div_le_mono (pointsLimit st) value 250 ltac:(lia) V). lia.
Qed.

(** X9 on the sample roster: two Champions asked for at limit 300. *)
Lemma champions_stay_within_cap_sample :
  countType "Champion"
    (rosterEntries (ChampionRules.run [Add "Paragon"; Add "Paragon"] (sampleStart 300)))
  <= 1.
Proof.
  assert (C : countType "Champion" (rosterEntries (sampleStart 300))
              <= pointsLimit (sampleStart 300) / 250)
    by (vm_compute; discriminate).
  destruct (champions_stay_within_cap [Add "Paragon"; Add "Paragon"]
              (sampleStart 300) 500 C) as [[L H] _].
  rewrite L in H. exact H.
Defined.

(** ** What every event keeps true *)

Section Events.

Lemma champion_handle_change ev st :
  gameData (ChampionPage.handle ev st) = gameData st
  /\ rosterChange st (ChampionPage.handle ev st).
Proof.
  destruct ev as [button|i| |value|value|b]; cbn [ChampionPage.handle].
  - destruct (ChampionPage.addDisabled button st);
      [split; [reflexivity|]; apply rosterKept; reflexivity|].
    destruct (findUnitInSelectedFaction (unit_name button) st) as [u|] eqn:F.
    + rewrite (champion_addUnit_cases _ _ _ F).
      destruct (ChampionPage.addDisabled u st).
      * split; [reflexivity|]. apply rosterKept; reflexivity.
      * split; [reflexivity|].
        apply (rosterPushed _ _ (unit_name button) u F); reflexivity.
    + unfold ChampionRules.addUnit. rewrite F.
      split; [reflexivity|]. apply rosterKept; reflexivity.
  - split; [reflexivity|]. apply (rosterRemoved _ _ i); reflexivity.
  - split; [reflexivity|]. apply rosterEmptied; reflexivity.
  - split; [reflexivity|]. apply rosterKept; reflexivity.
  - split; [reflexivity|]. apply rosterEmptied; reflexivity.
  - split; [destruct b; reflexivity|]. apply rosterKept; destruct b; reflexivity.
Qed.

Lemma elite_handle_change ev st :
  gameData (ElitePage.handle ev st) = gameData st
  /\ rosterChange st (ElitePage.handle ev st).
Proof.
  destruct ev as [button|i| |value|value|b]; cbn [ElitePage.handle].
  - unfold EliteRules.addUnit.
    destruct (findUnitInSelectedFaction (unit_name button) st) as [u|] eqn:F.
    + split; [reflexivity|].
      apply (rosterPushed _ _ (unit_name button) u F); reflexivity.
    + split; [reflexivity|]. apply rosterKept; reflexivity.
  - split; [reflexivity|]. apply (rosterRemoved _ _ i); reflexivity.
  - split; [reflexivity|]. apply rosterEmptied; reflexivity.
  - split; [reflexivity|]. apply rosterKept; reflexivity.
  - split; [reflexivity|]. apply rosterEmptied; reflexivity.
  - split; [destruct b; reflexivity|]. apply rosterKept; destruct b; reflexivity.
Qed.

(** A property that every roster change keeps, among states with the same
    catalogue, holds after any sequence of events of either edition. *)
Lemma kept_by_events (P : State -> Prop) :
  (forall st st', gameData st' = gameData st -> rosterChange st st' ->
                  P st -> P st') ->
  forall evs st, P st ->
    P (ChampionPage.handleAll evs st) /\ P (ElitePage.handleAll evs st).
Proof.
  intros Step.
  assert (A : forall evs st, P st -> P (ChampionPage.handleAll evs st)).
  { unfold ChampionPage.handleAll.
    induction evs as [|ev evs IH]; intros st H; [exact H|].
    cbn [fold_left]. apply IH.
    destruct (champion_handle_change ev st) as [G C].
    exact (Step _ _ G C H). }
  assert (B : forall evs st, P st -> P (ElitePage.handleAll evs st)).
  { unfold ElitePage.handleAll.
    induction evs as [|ev evs IH]; intros st H; [exact H|].
    cbn [fold_left]. apply IH.
    destruct (elite_handle_change ev st) as [G C].
    exact (Step _ _ G C H). }
  intros evs st H. split; auto.
Qed.

End Events.

Section Numbering.

Lemma sorted_filter {A : Type} (R : A -> A -> Prop) (f : A -> bool) l :
  StronglySorted R l -> StronglySorted R (filter f l).
Proof.
  induction 1 as [|a l S IH F]; simpl; [constructor|].
  destruct (f a); [|exact IH].
  constructor; [exact IH|].
  apply Forall_forall. intros x Hx. apply filter_In in Hx.
  exact (proj1 (Forall_forall _ _) F x (proj1 Hx)).
Qed.

Lemma forall_filter {A : Type} (P : A -> Prop) (f : A -> bool) l :
  Forall P l -> Forall P (filter f l).
Proof.
  intros F. apply Forall_forall. intros x Hx. apply filter_In in Hx.
  exact (proj1 (Forall_forall _ _) F x (proj1 Hx)).
Qed.

Lemma sorted_snoc {A : Type} (R : A -> A -> Prop) l a :
  StronglySorted R l -> Forall (fun x => R x a) l ->
  StronglySorted R (l ++ [a])%list.
Proof.
  induction 1 as [|b l S IH F]; intros H; simpl.
  - repeat constructor.
  - inversion H; subst. constructor; [apply IH; assumption|].
    apply Forall_app. split; [exact F|]. repeat constructor. assumption.
Qed.

Lemma wellNumbered_step st st' :
  rosterChange st st' -> wellNumbered st -> wellNumbered st'.
Proof.
  unfold wellNumbered.
  intros [R N _|name u _ R N _|i R N _|R N] [S B]; rewrite R, N.
  - split; assumption.
  - split.
    + apply sorted_snoc; [exact S|exact B].
    + apply Forall_app. split.
      * eapply Forall_impl; [|exact B]. intros e He. simpl in He. lia.
      * repeat constructor. simpl. lia.
  - split; [apply sorted_filter, S|apply forall_filter, B].
  - split; constructor.
Qed.

Lemma ascending_NoDup l :
  StronglySorted (fun a b : Entry => id a < id b) l -> NoDup (map id l).
Proof.
  induction 1 as [|a l S IH F]; simpl; constructor; [|exact IH].
  intros I. apply in_map_iff in I. destruct I as [b [E I]].
  pose proof (proj1 (Forall_forall _ _) F b I). simpl in *. lia.
Qed.

Lemma ascending_split l1 e l2 :
  StronglySorted (fun a b : Entry => id a < id b) (l1 ++ e :: l2)%list ->
  Forall (fun x => id x < id e) l1 /\ Forall (fun x => id e < id x) l2.
Proof.
  induction l1 as [|a l1 IH]; simpl; intros S; inversion S as [|? ? S' F]; subst.
  - split; [constructor|exact F].
  - destruct (IH S') as [F1 F2]. split; [|exact F2].
    constructor; [|exact F1].
    apply Forall_app in F. destruct F as [_ F]. inversion F; assumption.
Qed.

Lemma remove_the_one l1 e l2 :
  StronglySorted (fun a b : Entry => id a < id b) (l1 ++ e :: l2)%list ->
  filter (fun x => negb (id x =? id e)) (l1 ++ e :: l2)%list = (l1 ++ l2)%list.
Proof.
  intros S. destruct (ascending_split _ _ _ S) as [F1 F2].
  rewrite filter_app. cbn [filter]. rewrite Z.eqb_refl. cbn [negb].
  f_equal; apply filter_keeps_all; intros x Hx; apply negb_true_iff, Z.eqb_neq.
  - pose proof (proj1 (Forall_forall _ _) F1 x Hx). simpl in *. lia.
  - pose proof (proj1 (Forall_forall _ _) F2 x Hx). simpl in *. lia.
Qed.

End Numbering.

(** X10.  Ids stay in order: if the ids grow along the roster list and lie
    below the next id, this is still so after any sequence of events
    (add, delete, clear, limit change, faction change, copy), and so no
    two entries of the roster ever share an id.  Both editions. *)
Theorem ids_stay_ascending (evs : list Event) (st : State) :
  wellNumbered st ->
  (wellNumbered (ChampionPage.handleAll evs st)
   /\ NoDup (map id (rosterEntries (ChampionPage.handleAll evs st))))
  /\ (wellNumbered (ElitePage.handleAll evs st)
      /\ NoDup (map id (rosterEntries (ElitePage.handleAll evs st)))).
Proof.
  intros W.
  destruct (kept_by_events wellNumbered
              (fun s s' _ C => wellNumbered_step s s' C) evs st W) as [A B].
  split; (split; [assumption|apply ascending_NoDup]); [apply A|apply B].
Qed.

(** X10 from the empty sample roster. *)
Lemma ids_stay_ascending_sample :
  NoDup (map id (rosterEntries
    (ChampionPage.handleAll
       [AddClicked levyUnit; AddClicked levyUnit; DeleteClicked 1;
        AddClicked scoutUnit]
       (sampleStart 300)))).
Proof.
  assert (W : wellNumbered (sampleStart 300)) by (split; constructor).
  exact (proj2 (proj1 (ids_stay_ascending
    [AddClicked levyUnit; AddClicked levyUnit; DeleteClicked 1;
        AddClicked scoutUnit]
    (sampleStart 300) W))).
Defined.

(** X11.  In a roster whose ids grow along the list, deleting the id of
    an entry of the roster removes that entry alone: the entries before it
    and after it stay, in their order, and the total drops by the points
    of the removed entry.  Both editions. *)
Theorem deleteEntry_removes_one (st : State) (e : Entry) (l1 l2 : list Entry) :
  StronglySorted (fun a b => id a < id b) (rosterEntries st) ->
  rosterEntries st = (l1 ++ e :: l2)%list ->
  rosterEntries (ChampionRules.deleteEntry (id e) st) = (l1 ++ l2)%list
  /\ rosterEntries (EliteRules.deleteEntry (id e) st) = (l1 ++ l2)%list
  /\ getRosterTotal (ChampionRules.deleteEntry (id e) st)
     = getRosterTotal st - points e
  /\ getRosterTotal (EliteRules.deleteEntry (id e) st)
     = getRosterTotal st - points e.
Proof.
  intros S E.
  assert (R : rosterEntries (removeById (id e) st) = (l1 ++ l2)%list).
  { cbn [removeById rosterEntries]. rewrite E. apply remove_the_one.
    rewrite <- E. exact S. }
  assert (T : sumPoints (l1 ++ l2)%list = sumPoints (rosterEntries st) - points e).
  { rewrite E, !sumPoints_app. simpl. lia. }
  split; [exact R|]. split; [exact R|].
  rewrite !getRosterTotal_sum.
  change (rosterEntries (ChampionRules.deleteEntry (id e) st))
    with (rosterEntries (removeById (id e) st)).
  change (rosterEntries (EliteRules.deleteEntry (id e) st))
    with (rosterEntries (removeById (id e) st)).
  rewrite R. split; exact T.
Qed.

(** X11 on a roster of three entries, deleting the middle one: the first
    and the third stay in this order and the total drops from 23 to 13. *)
Lemma deleteEntry_removes_one_sample :
  let st := ChampionRules.run [Add "Captain"; Add "Levy"; Add "Scout"]
              (sampleStart 300) in
  rosterEntries (ChampionRules.deleteEntry 2 st)
    = [ {| id := 1; name := "Captain"; points := 5; type := "Leader" |};
        {| id := 3; name := "Scout"; points := 8; type := "Special" |} ]
  /\ rosterEntries (EliteRules.deleteEntry 2 st)
    = [ {| id := 1; name := "Captain"; points := 5; type := "Leader" |};
        {| id := 3; name := "Scout"; points := 8; type := "Special" |} ]
  /\ getRosterTotal (ChampionRules.deleteEntry 2 st) = 23 - 10
  /\ getRosterTotal (EliteRules.deleteEntry 2 st) = 23 - 10.
Proof.
  intros st.
  assert (S : StronglySorted (fun a b => id a < id b) (rosterEntries st))
    by (repeat constructor).
  exact (deleteEntry_removes_one st
           {| id := 2; name := "Levy"; points := 10; type := "Core" |}
           [ {| id := 1; name := "Captain"; points := 5; type := "Leader" |} ]
           [ {| id := 3; name := "Scout"; points := 8; type := "Special" |} ]
           S eq_refl).
Defined.

Section OneFaction.

Lemma getSelectedFaction_same st st' :
  gameData st' = gameData st ->
  selectedFactionName st' = selectedFactionName st ->
  getSelectedFaction st' = getSelectedFaction st.
Proof. unfold getSelectedFaction. intros -> ->. reflexivity. Qed.

Lemma fromSelectedFaction_same st st' e :
  gameData st' = gameData st ->
  selectedFactionName st' = selectedFactionName st ->
  fromSelectedFaction st e -> fromSelectedFaction st' e.
Proof.
  intros G N [f [u [F H]]]. exists f, u.
  rewrite (getSelectedFaction_same _ _ G N). split; assumption.
Qed.

Lemma oneFaction_step st st' :
  gameData st' = gameData st -> rosterChange st st' ->
  Forall (fromSelectedFaction st) (rosterEntries st) ->
  Forall (fromSelectedFaction st') (rosterEntries st').
Proof.
  intros G [R _ N|name u F R _ N|i R _ N|R _] H; rewrite R.
  - eapply Forall_impl; [|exact H].
    intros e. apply fromSelectedFaction_same; assumption.
  - apply Forall_app. split.
    + eapply Forall_impl; [|exact H].
      intros e. apply fromSelectedFaction_same; assumption.
    + constructor; [|constructor].
      apply (fromSelectedFaction_same st); trivial.
      destruct (findUnit_some _ _ _ F) as [f [S [I _]]].
      exists f, u. repeat split; assumption.
  - apply forall_filter. eapply Forall_impl; [|exact H].
    intros e. apply fromSelectedFaction_same; assumption.
  - constructor.
Qed.

End OneFaction.

(** X12.  The roster never mixes factions: if every entry was made from
    a unit of the selected faction (name, points and type with "Core" for
    a missing type), this is still so after any sequence of events, a
    change of faction included.  Both editions. *)
Theorem roster_stays_in_one_faction (evs : list Event) (st : State) :
  Forall (fromSelectedFaction st) (rosterEntries st) ->
  Forall (fromSelectedFaction (ChampionPage.handleAll evs st))
         (rosterEntries (ChampionPage.handleAll evs st))
  /\ Forall (fromSelectedFaction (ElitePage.handleAll evs st))
            (rosterEntries (ElitePage.handleAll evs st)).
Proof.
  apply (kept_by_events
           (fun s => Forall (fromSelectedFaction s) (rosterEntries s))
           oneFaction_step).
Qed.

(** X12 from the empty sample roster. *)
Lemma roster_stays_in_one_faction_sample :
  Forall (fromSelectedFaction
            (ElitePage.handleAll [AddClicked levyUnit; AddClicked veteranUnit]
               (sampleStart 200)))
         (rosterEntries
            (ElitePage.handleAll [AddClicked levyUnit; AddClicked veteranUnit]
               (sampleStart 200))).
Proof.
  exact (proj2 (roster_stays_in_one_faction
                  [AddClicked levyUnit; AddClicked veteranUnit] (sampleStart 200)
                  (Forall_nil _))).
Defined.

Section PositivePoints.

Lemma priced_step st st' :
  gameData st' = gameData st -> rosterChange st st' ->
  pricedRoster st -> pricedRoster st'.
Proof.
  unfold pricedRoster, positiveCatalogue.
  intros G C [Cat H]. split; [rewrite G; exact Cat|].
  destruct C as [R _ _|name u F R _ _|i R _ _|R _]; rewrite R.
  - exact H.
  - apply Forall_app. split; [exact H|]. constructor; [|constructor].
    destruct (findUnit_some _ _ _ F) as [f [S [I _]]].
    destruct (getSelectedFaction_some _ _ S) as [factions [D [If _]]].
    exact (Cat factions f u D If I).
  - apply forall_filter, H.
  - constructor.
Qed.

Lemma positive_sum l :
  Forall (fun e => 0 < points e) l ->
  0 <= sumPoints l /\ (sumPoints l = 0 <-> l = []).
Proof.
  induction 1 as [|e l P F IH]; simpl.
  - split; [lia|split; reflexivity].
  - destruct IH as [N _]. split; [lia|].
    split; [intros E; exfalso; lia|discriminate].
Qed.

End PositivePoints.

(** X13.  With a catalogue whose units all cost more than 0 points and a
    roster whose entries do too, after any sequence of events the total is
    non-negative and the status line reads "Ready." (severity [ok]) exactly
    when the roster is empty.  Both editions. *)
Theorem ready_iff_roster_empty (evs : list Event) (st : State) :
  positiveCatalogue st ->
  Forall (fun e => 0 < points e) (rosterEntries st) ->
  let a := ChampionPage.handleAll evs st in
  let b := ElitePage.handleAll evs st in
  (0 <= getRosterTotal a
   /\ (ChampionRules.rosterStatus a = ("Ready.", ok) <-> rosterEntries a = []))
  /\ (0 <= getRosterTotal b
      /\ (EliteRules.rosterStatus b = ("Ready.", ok) <-> rosterEntries b = [])).
Proof.
  intros Cat H a b.
  destruct (kept_by_events pricedRoster priced_step evs st (conj Cat H))
    as [[_ A] [_ B]].
  fold a in A. fold b in B.
  destruct (positive_sum _ A) as [NA EA]. destruct (positive_sum _ B) as [NB EB].
  rewrite !getRosterTotal_sum. repeat split; trivial.
  - intros S. apply EA. rewrite <- getRosterTotal_sum.
    exact (proj1 (statusCall_ready _ _ _ _) S).
  - intros E. apply (statusCall_ready _ _ _ _).
    rewrite getRosterTotal_sum. apply EA, E.
  - intros S. apply EB. rewrite <- getRosterTotal_sum.
    exact (proj1 (statusCall_ready _ _ _ _) S).
  - intros E. apply (statusCall_ready _ _ _ _).
    rewrite getRosterTotal_sum. apply EB, E.
Qed.

(** X13 on the sample catalogue after an add and its deletion. *)
Lemma ready_iff_roster_empty_sample :
  ChampionRules.rosterStatus
    (ChampionPage.handleAll [AddClicked levyUnit; DeleteClicked 1] (sampleStart 300))
  = ("Ready.", ok).
Proof.
  assert (Cat : positiveCatalogue (sampleStart 300)).
  { intros factions f u D If Iu. injection D as <-.
    destruct If as [<-|[]]. simpl in Iu.
    repeat (destruct Iu as [<-|Iu]; [reflexivity|]). destruct Iu. }
  pose proof (ready_iff_roster_empty [AddClicked levyUnit; DeleteClicked 1]
                (sampleStart 300) Cat (Forall_nil _)) as H.
  cbv zeta in H. destruct H as [[_ H] _].
  apply (proj2 H). reflexivity.
Defined.

(** ** The status line in terms of the roster *)

Section StatusByCounts.

Lemma champion_problems_none st :
  ChampionRules.compProblems st = [] <->
  (countType "Leader" (rosterEntries st) = 1
   /\ countType "Special" (rosterEntries st) <= countType "Core" (rosterEntries st)
   /\ countType "Champion" (rosterEntries st) <= pointsLimit st / 250).
Proof.
  unfold ChampionRules.compProblems, ChampionRules.getChampionCap.
  rewrite champion_comp_counts.
  cbn [ChampionRules.leaders ChampionRules.core ChampionRules.requiredCore
       ChampionRules.champions].
  rewrite Z.gtb_ltb.
  destruct (Z.eqb_spec (countType "Leader" (rosterEntries st)) 1);
    destruct (Z.ltb_spec (countType "Core" (rosterEntries st))
                         (countType "Special" (rosterEntries st)));
    destruct (Z.ltb_spec (pointsLimit st / 250)
                         (countType "Champion" (rosterEntries st)));
    cbn [negb List.app]; split; intros Hyp; try discriminate Hyp;
    try reflexivity; try lia.
Qed.

Lemma elite_problems_none st :
  EliteRules.compProblems st = [] <->
  (countType "Leader" (rosterEntries st) = 1
   /\ countType "Special" (rosterEntries st)
      + 2 * countType "Elite" (rosterEntries st)
      <= countType "Core" (rosterEntries st)).
Proof.
  unfold EliteRules.compProblems.
  rewrite elite_comp_counts.
  cbn [EliteRules.leaders EliteRules.core EliteRules.requiredCore].
  destruct (Z.eqb_spec (countType "Leader" (rosterEntries st)) 1);
    destruct (Z.ltb_spec (countType "Core" (rosterEntries st))
                (countType "Special" (rosterEntries st)
                 + 2 * countType "Elite" (rosterEntries st)));
    cbn [negb List.app]; split; intros Hyp; try discriminate Hyp;
    try reflexivity; try lia.
Qed.

Ltac severity_rows :=
  split; [|split]; split; intros Hyp; try discriminate Hyp;
  intuition (try lia; try discriminate).

(** The severity of the decision table, with [legal] standing for an
    empty list of problems. *)
Lemma severity_cases legalSoFar total limit problems (legal : Prop) :
  (problems = [] <-> legal) ->
  let sev := snd (statusCall legalSoFar total limit problems) in
  (sev = ok <-> total = 0 \/ (total <= limit /\ legal))
  /\ (sev = warn <-> total <> 0 /\ total <= limit /\ ~ legal)
  /\ (sev = danger <-> total <> 0 /\ limit < total).
Proof.
  intros P sev. subst sev. rewrite statusCall_table. unfold decisionTable.
  destruct (Z.eqb_spec total 0) as [Z|Z]; [cbn [snd]; severity_rows|].
  destruct (Z.leb_spec total limit) as [L|L]; destruct problems as [|p ps].
  - assert (Lg : legal) by (apply P; reflexivity).
    destruct (total =? limit); cbn [snd]; severity_rows.
  - assert (Lg : ~ legal) by (intros Hyp; apply P in Hyp; discriminate Hyp).
    cbn [snd]. severity_rows.
  - cbn [snd]. severity_rows.
  - cbn [snd]. severity_rows.
Qed.

End StatusByCounts.

(** X14.  Champion edition: the list of composition problems is empty
    exactly when the roster has one Leader, at least as many Core as
    Special entries and at most [floor(pointsLimit / 250)] Champions.  The
    status is [ok] exactly when the total is 0 or the total is within the
    limit and the composition is legal in this sense, [warn] exactly when
    a non-zero total is within the limit and the composition is not legal,
    and [danger] exactly when the total is over the limit. *)
Theorem champion_status_by_counts (st : State) :
  let l := rosterEntries st in
  let total := sumPoints l in
  let legal := countType "Leader" l = 1
               /\ countType "Special" l <= countType "Core" l
               /\ countType "Champion" l <= pointsLimit st / 250 in
  (ChampionRules.compProblems st = [] <-> legal)
  /\ (snd (ChampionRules.rosterStatus st) = ok
      <-> total = 0 \/ (total <= pointsLimit st /\ legal))
  /\ (snd (ChampionRules.rosterStatus st) = warn
      <-> total <> 0 /\ total <= pointsLimit st /\ ~ legal)
  /\ (snd (ChampionRules.rosterStatus st) = danger
      <-> total <> 0 /\ pointsLimit st < total).
Proof.
  intros l total legal.
  split; [apply champion_problems_none|].
  unfold ChampionRules.rosterStatus, ChampionRules.renderRoster_status.
  rewrite getRosterTotal_sum.
  apply (severity_cases _ _ _ _ legal), champion_problems_none.
Qed.

(** X14 on a roster of one Leader within the limit. *)
Lemma champion_status_by_counts_sample :
  snd (ChampionRules.rosterStatus (ChampionRules.addUnit "Captain" (sampleStart 300)))
  = ok.
Proof.
  pose proof (champion_status_by_counts
                (ChampionRules.addUnit "Captain" (sampleStart 300))) as H.
  cbv zeta in H. destruct H as [_ [H _]].
  apply (proj2 H). right. vm_compute. repeat split; discriminate.
Defined.

(** X15.  Elite edition: the list of composition problems is empty
    exactly when the roster has one Leader and at least as many Core
    entries as Special entries plus twice the Elite entries.  The status is
    [ok] exactly when the total is 0 or the total is within the limit and
    the composition is legal in this sense, [warn] exactly when a non-zero
    total is within the limit and the composition is not legal, and
    [danger] exactly when the total is over the limit. *)
Theorem elite_status_by_counts (st : State) :
  let l := rosterEntries st in
  let total := sumPoints l in
  let legal := countType "Leader" l = 1
               /\ countType "Special" l + 2 * countType "Elite" l
                  <= countType "Core" l in
  (EliteRules.compProblems st = [] <-> legal)
  /\ (snd (EliteRules.rosterStatus st) = ok
      <-> total = 0 \/ (total <= pointsLimit st /\ legal))
  /\ (snd (EliteRules.rosterStatus st) = warn
      <-> total <> 0 /\ total <= pointsLimit st /\ ~ legal)
  /\ (snd (EliteRules.rosterStatus st) = danger
      <-> total <> 0 /\ pointsLimit st < total).
Proof.
  intros l total legal.
  split; [apply elite_problems_none|].
  unfold EliteRules.rosterStatus, EliteRules.renderRoster_status.
  rewrite getRosterTotal_sum.
  apply (severity_cases _ _ _ _ legal), elite_problems_none.
Qed.

(** X15 on a roster of one Leader and one Elite, which lacks two Core. *)
Lemma elite_status_by_counts_sample :
  snd (EliteRules.rosterStatus
         (EliteRules.run [Add "Captain"; Add "Veteran"] (sampleStart 200)))
  = warn.
Proof.
  pose proof (elite_status_by_counts
                (EliteRules.run [Add "Captain"; Add "Veteran"] (sampleStart 200)))
    as H.
  cbv zeta in H. destruct H as [_ [_ [H _]]].
  apply (proj2 H). vm_compute.
  split; [discriminate|]. split; [discriminate|].
  intros [_ C]. apply C. reflexivity.
Defined.

(** X16.  Changing the faction or pressing Clear empties the roster,
    restarts the ids at 1 and shows "Ready." with severity [ok]; the
    faction change selects the new faction and Clear keeps the selected
    one.  Changing the points limit keeps the roster and the ids and shows
    the status of the roster under the new limit.  None of them changes
    the catalogue.  Both editions. *)
Theorem reset_and_limit_events (st : State) (value : string) (limit : Z) :
  let emptied (st' : State) :=
    rosterEntries st' = [] /\ nextId st' = 1
    /\ statusText st' = "Ready." /\ statusDot st' = "var(--ok)"
    /\ pointsLimit st' = pointsLimit st /\ gameData st' = gameData st in
  let relimited (st' : State) (status : State -> string * severity) :=
    rosterEntries st' = rosterEntries st /\ nextId st' = nextId st
    /\ pointsLimit st' = limit /\ gameData st' = gameData st
    /\ selectedFactionName st' = selectedFactionName st
    /\ statusText st' = fst (status st') in
  (emptied (ChampionPage.handle (FactionChanged value) st)
   /\ selectedFactionName (ChampionPage.handle (FactionChanged value) st) = value
   /\ emptied (ChampionPage.handle ClearClicked st)
   /\ selectedFactionName (ChampionPage.handle ClearClicked st)
      = selectedFactionName st
   /\ relimited (ChampionPage.handle (LimitChanged limit) st)
        ChampionRules.rosterStatus)
  /\ (emptied (ElitePage.handle (FactionChanged value) st)
      /\ selectedFactionName (ElitePage.handle (FactionChanged value) st) = value
      /\ emptied (ElitePage.handle ClearClicked st)
      /\ selectedFactionName (ElitePage.handle ClearClicked st)
         = selectedFactionName st
      /\ relimited (ElitePage.handle (LimitChanged limit) st)
           EliteRules.rosterStatus).
Proof.
  intros emptied relimited. unfold emptied, relimited.
  cbn [ChampionPage.handle ElitePage.handle].
  unfold ChampionRules.renderRoster, EliteRules.renderRoster.
  rewrite !empty_roster_status_champion by reflexivity.
  rewrite !empty_roster_status_elite by reflexivity.
  repeat split.
Qed.

(** ** The displayed roster, group by group *)

Section Grouping.

Variable rk : Entry -> Z.

Lemma sorted_app {A : Type} (R : A -> A -> Prop) l1 l2 :
  StronglySorted R l1 -> StronglySorted R l2 ->
  (forall a b, In a l1 -> In b l2 -> R a b) ->
  StronglySorted R (l1 ++ l2)%list.
Proof.
  induction 1 as [|a l1 S IH F]; intros S2 C; simpl; [exact S2|].
  constructor.
  - apply IH; [exact S2|]. intros x y Hx Hy. apply C; [right|]; assumption.
  - apply Forall_app. split; [exact F|].
    apply Forall_forall. intros y Hy. apply C; [left; reflexivity|exact Hy].
Qed.

(** Two lists in the same order with the same elements are the same
    list, when the order tells any two of the elements apart. *)
Lemma sorted_perm_unique {A : Type} (R : A -> A -> Prop) l1 : forall l2,
  (forall a b, In a l1 -> In b l1 -> R a b -> R b a -> a = b) ->
  StronglySorted R l1 -> StronglySorted R l2 -> Permutation l1 l2 ->
  l1 = l2.
Proof.
  induction l1 as [|a l1 IH]; intros l2 Anti S1 S2 P.
  - apply Permutation_nil in P. subst. reflexivity.
  - destruct l2 as [|b l2];
      [apply Permutation_sym, Permutation_nil in P; discriminate P|].
    inversion S1 as [|? ? S1' F1]; subst.
    inversion S2 as [|? ? S2' F2]; subst.
    assert (E : a = b).
    { assert (Ia : In a (b :: l2))
        by (eapply Permutation_in; [exact P|left; reflexivity]).
      assert (Ib : In b (a :: l1))
        by (eapply Permutation_in; [apply Permutation_sym, P|left; reflexivity]).
      destruct Ia as [Ia|Ia]; [symmetry; exact Ia|].
      destruct Ib as [Ib|Ib]; [exact Ib|].
      apply Anti; [left; reflexivity|right; exact Ib| |].
      - exact (proj1 (Forall_forall _ _) F1 b Ib).
      - exact (proj1 (Forall_forall _ _) F2 a Ia). }
    subst b. f_equal. apply IH; trivial.
    + intros x y Hx Hy. apply Anti; right; assumption.
    + eapply Permutation_cons_inv, P.
Qed.

Lemma group_sorted l r :
  StronglySorted (fun a b : Entry => id a < id b) l ->
  StronglySorted (rankBefore rk) (rankGroup rk l r).
Proof.
  unfold rankGroup. induction 1 as [|a l S IH F]; simpl; [constructor|].
  destruct (Z.eqb_spec (rk a) r) as [E|_]; [|exact IH].
  constructor; [exact IH|].
  apply Forall_forall. intros x Hx. apply filter_In in Hx. destruct Hx as [Ix Ex].
  apply Z.eqb_eq in Ex. right. split; [congruence|].
  pose proof (proj1 (Forall_forall _ _) F x Ix). simpl in *. lia.
Qed.

Lemma groups_sorted l rs :
  StronglySorted (fun a b : Entry => id a < id b) l ->
  StronglySorted Z.lt rs ->
  StronglySorted (rankBefore rk) (flat_map (rankGroup rk l) rs).
Proof.
  intros Sl. induction 1 as [|r rs S IH F]; simpl; [constructor|].
  apply sorted_app; [apply group_sorted, Sl|exact IH|].
  intros a b Ia Ib. apply filter_In in Ia. destruct Ia as [_ Ea].
  apply in_flat_map in Ib. destruct Ib as [r' [Ir Ib]].
  apply filter_In in Ib. destruct Ib as [_ Eb].
  apply Z.eqb_eq in Ea, Eb. left.
  pose proof (proj1 (Forall_forall _ _) F r' Ir). lia.
Qed.

Lemma groups_skip a l rs :
  ~ In (rk a) rs -> flat_map (rankGroup rk (a :: l)) rs = flat_map (rankGroup rk l) rs.
Proof.
  induction rs as [|r rs IH]; simpl; intros N; [reflexivity|].
  rewrite IH by (intros I; apply N; right; exact I). f_equal.
  unfold rankGroup. simpl. destruct (Z.eqb_spec (rk a) r) as [E|_]; [|reflexivity].
  exfalso. apply N. left. symmetry. exact E.
Qed.

Lemma groups_perm l rs :
  NoDup rs -> (forall e, In e l -> In (rk e) rs) ->
  Permutation l (flat_map (rankGroup rk l) rs).
Proof.
  intros D. induction l as [|a l IH]; intros C.
  - replace (flat_map (rankGroup rk []) rs) with (@nil Entry); [constructor|].
    clear. induction rs as [|r rs IH]; simpl; [reflexivity|exact IH].
  - destruct (in_split _ _ (C a (or_introl eq_refl))) as [rs1 [rs2 E]].
    subst rs. apply NoDup_remove_2 in D.
    rewrite flat_map_app. cbn [flat_map].
    rewrite !groups_skip
      by (intros I; apply D, in_or_app; auto).
    assert (IH' : Permutation l (flat_map (rankGroup rk l) (rs1 ++ rk a :: rs2)))
      by (apply IH; intros e He; apply C; right; exact He).
    rewrite flat_map_app in IH'. cbn [flat_map] in IH'.
    unfold rankGroup at 2. cbn [filter]. rewrite Z.eqb_refl.
    fold (rankGroup rk l (rk a)).
    cbn [List.app]. apply Permutation_cons_app, IH'.
Qed.

Lemma same_id_same_entry l a b :
  StronglySorted (fun a b : Entry => id a < id b) l ->
  In a l -> In b l -> id a = id b -> a = b.
Proof.
  induction 1 as [|x l S IH F]; intros Ia Ib E; [destruct Ia|].
  pose proof (proj1 (Forall_forall _ _) F) as Fx. simpl in Fx.
  destruct Ia as [<-|Ia], Ib as [<-|Ib]; trivial.
  - pose proof (Fx b Ib). lia.
  - pose proof (Fx a Ia). lia.
  - apply IH; assumption.
Qed.

Lemma grouped_display (cmp : Entry -> Entry -> Z) l rs :
  (forall a b, cmp a b <= 0 <-> rankBefore rk a b) ->
  StronglySorted (fun a b : Entry => id a < id b) l ->
  StronglySorted Z.lt rs -> (forall e, In e l -> In (rk e) rs) ->
  sortWith cmp l = flat_map (rankGroup rk l) rs.
Proof.
  intros Cmp Sl Srs C.
  assert (T : forall a b, cmp a b <= 0 \/ cmp b a <= 0)
    by (intros a b; rewrite !Cmp; unfold rankBefore; lia).
  assert (Tr : forall a b c, cmp a b <= 0 -> cmp b c <= 0 -> cmp a c <= 0)
    by (intros a b c; rewrite !Cmp; unfold rankBefore; lia).
  apply (sorted_perm_unique (rankBefore rk)).
  - intros a b Ia Ib [Hab|[Hr Hab]] [Hba|[Hr' Hba]]; try lia.
    apply (same_id_same_entry l); trivial.
    + eapply Permutation_in; [apply Permutation_sym, sortWith_perm|exact Ia].
    + eapply Permutation_in; [apply Permutation_sym, sortWith_perm|exact Ib].
    + lia.
  - pose proof (sortWith_sorted cmp T Tr l) as S.
    induction S as [|a l' S IH F]; constructor; [exact IH|].
    eapply Forall_impl; [|exact F]. intros b. apply Cmp.
  - apply groups_sorted; assumption.
  - eapply perm_trans; [apply Permutation_sym, sortWith_perm|].
    apply groups_perm; [|exact C].
    clear -Srs. induction Srs as [|r rs S IH F]; constructor; [|exact IH].
    intros I. pose proof (proj1 (Forall_forall _ _) F r I). lia.
Qed.

End Grouping.

Section GroupingByType.

Lemma rankOf_values fourth t : In (rankOf fourth t) [0; 1; 2; 3; 999].
Proof.
  unfold rankOf.
  destruct (String.eqb t "Leader"); [simpl; tauto|].
  destruct (String.eqb t "Core"); [simpl; tauto|].
  destruct (String.eqb t "Special"); [simpl; tauto|].
  destruct (String.eqb t fourth); simpl; tauto.
Qed.

Lemma ranks_ascending : StronglySorted Z.lt [0; 1; 2; 3; 999].
Proof. repeat constructor. Qed.

End GroupingByType.

(** X17.  In a roster whose ids grow along the list, the displayed and
    exported order is the roster taken group by group: the Leaders, then
    the Core, the Special, the entries of the edition's fourth type, and
    last those of any other type, each group in the order of the roster
    list, which is the order of adding.  Both editions. *)
Theorem display_is_roster_by_groups (st : State) :
  StronglySorted (fun a b => id a < id b) (rosterEntries st) ->
  ChampionRules.ordered st = byRank "Champion" (rosterEntries st)
  /\ EliteRules.ordered st = byRank "Elite" (rosterEntries st).
Proof.
  intros S. split.
  - apply (grouped_display (fun e => rankOf "Champion" (type e))); trivial.
    + intros a b. rewrite compareEntries_before. unfold displayBefore.
      rewrite !champion_ranks. reflexivity.
    + apply ranks_ascending.
    + intros e _. apply rankOf_values.
  - apply (grouped_display (fun e => rankOf "Elite" (type e))); trivial.
    + intros a b. rewrite compareEntries_before. unfold displayBefore.
      rewrite !elite_ranks. reflexivity.
    + apply ranks_ascending.
    + intros e _. apply rankOf_values.
Qed.

(** X17 on a sample roster of five entries. *)
Lemma display_is_roster_by_groups_sample :
  map id (ChampionRules.ordered
            (ChampionRules.run
               [Add "Scout"; Add "Stray"; Add "Paragon"; Add "Levy"; Add "Captain"]
               (sampleStart 300)))
  = [5; 4; 1; 3; 2].
Proof.
  rewrite (proj1 (display_is_roster_by_groups
    (ChampionRules.run
       [Add "Scout"; Add "Stray"; Add "Paragon"; Add "Levy"; Add "Captain"]
       (sampleStart 300))
    ltac:(repeat constructor))).
  reflexivity.
Defined.

(** ** The lines of the exported roster *)

Section ExportLines.

Lemma mapIdx_length {A B : Type} (f : A -> Z -> B) l : forall i,
  List.length (mapIdx f i l) = List.length l.
Proof. induction l as [|a l IH]; intros i; simpl; [reflexivity|]. now rewrite IH. Qed.

Lemma mapIdx_nth_error {A B : Type} (f : A -> Z -> B) l : forall i k,
  nth_error (mapIdx f i l) k
  = option_map (fun a => f a (i + Z.of_nat k)) (nth_error l k).
Proof.
  induction l as [|a l IH]; intros i k; destruct k as [|k]; simpl; trivial.
  - now rewrite Z.add_0_r.
  - rewrite IH. destruct (nth_error l k); simpl; [|reflexivity].
    do 2 f_equal. lia.
Qed.

Lemma body_lines (shown : list Entry) (heading : list string) :
  List.length heading = 7%nat ->
  let lines := List.app heading
                 (if Z.of_nat (List.length shown) =? 0 then ["(No units)"]
                  else mapIdx entryLine 0 shown) in
  List.length lines = (7 + Nat.max 1 (List.length shown))%nat
  /\ (shown = [] -> nth_error lines 7 = Some "(No units)")
  /\ (shown <> [] -> forall k,
        nth_error lines (7 + k)
        = option_map (fun e => entryLine e (Z.of_nat k)) (nth_error shown k)).
Proof.
  intros H7 lines. subst lines. rewrite length_app, H7.
  destruct shown as [|e shown].
  - cbn [List.length Z.of_nat Z.eqb]. split; [reflexivity|]. split.
    + intros _. rewrite nth_error_app2 by lia. rewrite H7. reflexivity.
    + intros N. destruct (N eq_refl).
  - replace (Z.of_nat (List.length (e :: shown)) =? 0) with false
      by (symmetry; apply Z.eqb_neq; simpl List.length; lia).
    rewrite mapIdx_length. split; [simpl List.length; lia|]. split.
    + discriminate.
    + intros _ k. rewrite nth_error_app2 by lia.
      replace (7 + k - List.length heading)%nat with k by lia.
      rewrite mapIdx_nth_error. reflexivity.
Qed.

End ExportLines.

(** X18.  The exported roster has seven heading lines and then one line
    per entry, or the single line "(No units)" for an empty roster; the
    line numbered k+1 is the line of the entry at place k of the display
    order, and no line follows the last entry.  Both editions. *)
Theorem export_lines_numbered (st : State) :
  (List.length (ChampionRules.rosterLines st)
     = (7 + Nat.max 1 (List.length (rosterEntries st)))%nat
   /\ (rosterEntries st = [] ->
       nth_error (ChampionRules.rosterLines st) 7 = Some "(No units)")
   /\ (rosterEntries st <> [] -> forall k,
       nth_error (ChampionRules.rosterLines st) (7 + k)
       = option_map (fun e => entryLine e (Z.of_nat k))
           (nth_error (ChampionRules.ordered st) k)))
  /\ (List.length (EliteRules.rosterLines st)
        = (7 + Nat.max 1 (List.length (rosterEntries st)))%nat
      /\ (rosterEntries st = [] ->
          nth_error (EliteRules.rosterLines st) 7 = Some "(No units)")
      /\ (rosterEntries st <> [] -> forall k,
          nth_error (EliteRules.rosterLines st) (7 + k)
          = option_map (fun e => entryLine e (Z.of_nat k))
              (nth_error (EliteRules.ordered st) k))).
Proof.
  assert (L : forall m,
    List.length (sortWith (compareEntries m) (rosterEntries st))
    = List.length (rosterEntries st))
    by (intros m; symmetry; apply Permutation_length, sortWith_perm).
  assert (E : forall m,
    sortWith (compareEntries m) (rosterEntries st) = [] <-> rosterEntries st = []).
  { intros m. split; intros H.
    - apply length_zero_iff_nil. rewrite <- (L m), H. reflexivity.
    - rewrite H. reflexivity. }
  split.
  - unfold ChampionRules.rosterLines.
    match goal with
    | |- context [List.app ?h _] =>
        destruct (body_lines (ChampionRules.ordered st) h eq_refl) as [A [B C]]
    end.
    unfold ChampionRules.ordered in *.
    split; [rewrite <- (L ChampionRules.TYPE_ORDER_MAP); exact A|]. split.
    + intros H. apply B, (E ChampionRules.TYPE_ORDER_MAP), H.
    + intros H. apply C. intros H'.
      apply H, (E ChampionRules.TYPE_ORDER_MAP), H'.
  - unfold EliteRules.rosterLines.
    match goal with
    | |- context [List.app ?h _] =>
        destruct (body_lines (EliteRules.ordered st) h eq_refl) as [A [B C]]
    end.
    unfold EliteRules.ordered in *.
    split; [rewrite <- (L EliteRules.TYPE_ORDER_MAP); exact A|]. split.
    + intros H. apply B, (E EliteRules.TYPE_ORDER_MAP), H.
    + intros H. apply C. intros H'.
      apply H, (E EliteRules.TYPE_ORDER_MAP), H'.
Qed.

(** X18 on a roster of a Special and a Leader: the Leader, added second,
    is line 1. *)
Lemma export_lines_numbered_sample :
  nth_error
    (ChampionRules.rosterLines
       (ChampionRules.run [Add "Scout"; Add "Captain"] (sampleStart 300))) 7
  = Some "1. [Leader] Captain — 5".
Proof.
  pose proof (export_lines_numbered
                (ChampionRules.run [Add "Scout"; Add "Captain"] (sampleStart 300)))
    as [[_ [_ H]] _].
  change 7%nat with (7 + 0)%nat.
  rewrite (H ltac:(discriminate) 0%nat). reflexivity.
Defined.
